(** * Inbox signature checking of users/views/identity.py

    A shallow embedding of [Inbox.post] (src/users/views/identity.py, lines
    138-181): the parsing of the [Signature] header, the body digest check,
    the construction of the signed string and the hand-over to the actor's
    key, together with the Python built-ins the handler calls. *)

From Stdlib Require Import ZArith NArith Lia Bool Ascii.
From Stdlib.Strings Require Import Byte.
From stdpp Require Import base option list gmap strings.

Local Open Scope Z_scope.

(** ** Python values and exceptions *)

(** A Python [str] received through WSGI holds code points 0..255 only (PEP
    3333: header values are latin-1 decoded), so one [ascii] stands for one
    code point.  [bytes] is a list of bytes. *)
Definition bytes : Type := list byte.

Inductive exn : Type :=
  | ValueError (msg : string)
  | KeyError (key : string)
  | TypeError
  | AttributeError
  | UnicodeDecodeError
  | JSONDecodeError
  | Raised (what : string).

Inductive result (A : Type) : Type :=
  | Ok (a : A)
  | Raise (e : exn).
Arguments Ok {A} a.
Arguments Raise {A} e.

(** ** String built-ins *)

Module Str.

(** [s.split(sep)] for a one-character separator, generalised to a class
    of separator characters: every separator cuts, empty pieces are kept,
    and the result is never empty. *)
Fixpoint split_by (p : ascii -> bool) (s : string) : list string :=
  match s with
  | EmptyString => [EmptyString]
  | String a s' =>
      if p a then EmptyString :: split_by p s'
      else match split_by p s' with
           | w :: ws => String a w :: ws
           | [] => [String a EmptyString]
           end
  end.

Definition split (sep : ascii) (s : string) : list string :=
  split_by (Ascii.eqb sep) s.

(** [s.split(sep, 1)]: the text before the first [sep] and the text after
    it, or [None] when [sep] does not occur (Python then returns the
    one-element list [[s]]). *)
Fixpoint split_once (sep : ascii) (s : string) : option (string * string) :=
  match s with
  | EmptyString => None
  | String a s' =>
      if Ascii.eqb sep a then Some (EmptyString, s')
      else match split_once sep s' with
           | Some (l, r) => Some (String a l, r)
           | None => None
           end
  end.

Fixpoint lstrip (c : ascii) (s : string) : string :=
  match s with
  | EmptyString => EmptyString
  | String a s' => if Ascii.eqb c a then lstrip c s' else s
  end.

Fixpoint rstrip (c : ascii) (s : string) : string :=
  match s with
  | EmptyString => EmptyString
  | String a s' =>
      match rstrip c s' with
      | EmptyString => if Ascii.eqb c a then EmptyString else String a EmptyString
      | r => String a r
      end
  end.

(** [s.strip(c)] for a one-character set. *)
Definition strip (c : ascii) (s : string) : string := rstrip c (lstrip c s).

(** [str.isspace] on one code point below 256: TAB, LF, VT, FF, CR, the
    four separators FS..US, space, NEL (0x85) and NBSP (0xA0). *)
Definition isspace (a : ascii) : bool :=
  let n := N_of_ascii a in
  ((9 <=? n) && (n <=? 13) || (28 <=? n) && (n <=? 32)
   || (n =? 133) || (n =? 160))%N.

Definition nonempty (s : string) : bool :=
  match s with EmptyString => false | _ => true end.

(** [s.split()] with no argument: cut at runs of whitespace, no empty
    piece. *)
Definition split_ws (s : string) : list string :=
  filter (fun w => nonempty w = true) (split_by isspace s).

(** [sep.join(items)]. *)
Fixpoint join (sep : string) (items : list string) : string :=
  match items with
  | [] => EmptyString
  | [x] => x
  | x :: rest => x +:+ sep +:+ join sep rest
  end.

(** [str.upper] on one code point below 256.  Three code points leave the
    range or the length: U+00B5 and U+00FF have their capital above 255,
    and U+00DF becomes the two letters SS. *)
Definition upper_char (a : ascii) : option string :=
  let n := N_of_ascii a in
  if ((97 <=? n) && (n <=? 122))%N then Some (String (ascii_of_N (n - 32)) EmptyString)
  else if ((n =? 181) || (n =? 255))%N then None
  else if (n =? 223)%N then Some "SS"
  else if ((224 <=? n) && (n <=? 254) && negb (n =? 247))%N
       then Some (String (ascii_of_N (n - 32)) EmptyString)
  else Some (String a EmptyString).

(** [s.upper()], [None] when the result has a code point above 255 (such
    a string is no key of a WSGI environment). *)
Fixpoint upper (s : string) : option string :=
  match s with
  | EmptyString => Some EmptyString
  | String a s' =>
      match upper_char a, upper s' with
      | Some u, Some r => Some (u +:+ r)
      | _, _ => None
      end
  end.



End Str.

(** The double quote, written by its code so that no literal holds one. *)
Definition dquote : ascii := ascii_of_N 34.

(** [quoted s] is [s] between double quotes. *)
Definition quoted (s : string) : string :=
  String dquote (s +:+ String dquote EmptyString).

(** ** Bytes *)

Definition byte_of_Z (z : Z) : byte :=
  default x00 (Byte.of_N (Z.to_N (z mod 256))).

Definition Z_of_byte (b : byte) : Z := Z.of_N (Byte.to_N b).

(** [bytes.decode(ascii)]: every byte must be below 128. *)
Fixpoint decode_ascii (l : bytes) : result string :=
  match l with
  | [] => Ok EmptyString
  | b :: l' =>
      if (Byte.to_N b <? 128)%N then
        match decode_ascii l' with
        | Ok s => Ok (String (ascii_of_byte b) s)
        | Raise e => Raise e
        end
      else Raise UnicodeDecodeError
  end.

(** ** SHA-256 (hashes.Hash(hashes.SHA256()), FIPS 180-4) *)

Module SHA256.

Definition w32 : Z := 2 ^ 32.
Definition add32 (x y : Z) : Z := (x + y) mod w32.
Definition rotr (n x : Z) : Z :=
  Z.lor (Z.shiftr x n) (Z.shiftl x (32 - n) mod w32).
Definition Ch (x y z : Z) : Z :=
  Z.lxor (Z.land x y) (Z.land (Z.lxor x (w32 - 1)) z).
Definition Maj (x y z : Z) : Z :=
  Z.lxor (Z.lxor (Z.land x y) (Z.land x z)) (Z.land y z).
Definition Sigma0 (x : Z) : Z := Z.lxor (Z.lxor (rotr 2 x) (rotr 13 x)) (rotr 22 x).
Definition Sigma1 (x : Z) : Z := Z.lxor (Z.lxor (rotr 6 x) (rotr 11 x)) (rotr 25 x).
Definition sigma0 (x : Z) : Z := Z.lxor (Z.lxor (rotr 7 x) (rotr 18 x)) (Z.shiftr x 3).
Definition sigma1 (x : Z) : Z := Z.lxor (Z.lxor (rotr 17 x) (rotr 19 x)) (Z.shiftr x 10).

(** The constants are the first 32 bits of the fractional parts of the
    square roots (initial hash value, 8 primes) and of the cube roots
    (round constants, 64 primes) of the first primes. *)
Definition is_prime (p : nat) : bool :=
  forallb (fun d => negb (Nat.eqb (p mod d) 0)) (seq 2 (p - 2)).
Definition primes (n : nat) : list Z :=
  map Z.of_nat (take n (filter (fun p => is_prime p = true) (seq 2 400))).

(** Integer cube root, one bit at a time from bit [k - 1] down. *)
Fixpoint icbrt (k : nat) (n r : Z) : Z :=
  match k with
  | O => r
  | S k' =>
      let r' := r + 2 ^ Z.of_nat k' in
      icbrt k' n (if r' * r' * r' <=? n then r' else r)
  end.

Definition H0 : list Z :=
  Eval vm_compute in map (fun p => Z.sqrt (p * 2 ^ 64) mod w32) (primes 8).
Definition K : list Z :=
  Eval vm_compute in map (fun p => icbrt 40 (p * 2 ^ 96) 0 mod w32) (primes 64).

(** Padding: the byte 0x80, zero bytes up to 56 modulo 64, and the bit
    length as a 64-bit big-endian number. *)
Definition be_bytes (n : nat) (x : Z) : list Z :=
  map (fun i => Z.shiftr x (8 * Z.of_nat (n - 1 - i)) mod 256) (seq 0 n).
Definition pad (msg : list Z) : list Z :=
  let len := Z.of_nat (length msg) in
  msg ++ [128] ++ replicate (Z.to_nat ((55 - len) mod 64)) 0 ++ be_bytes 8 (8 * len).

Definition be_word (bs : list Z) : Z :=
  fold_left (fun acc b => acc * 256 + b) bs 0.

(** [chunks n fuel l]: [l] cut into pieces of [n] elements. *)
Fixpoint chunks {A : Type} (n : nat) (fuel : nat) (l : list A) : list (list A) :=
  match fuel, l with
  | O, _ | _, [] => []
  | S fuel', _ => take n l :: chunks n fuel' (drop n l)
  end.

(** The message schedule: 16 words of the block, then 48 derived ones. *)
Fixpoint schedule (k : nat) (W : list Z) : list Z :=
  match k with
  | O => W
  | S k' =>
      let t := length W in
      let w i := nth (t - i) W 0 in
      schedule k' (W ++ [add32 (add32 (add32 (sigma1 (w 2%nat)) (w 7%nat))
                                      (sigma0 (w 15%nat))) (w 16%nat)])
  end.

Record regs : Type := Regs { ra : Z; rb : Z; rc : Z; rd : Z; re : Z; rf : Z; rg : Z; rh : Z }.

Definition round (s : regs) (kw : Z * Z) : regs :=
  let '(k, w) := kw in
  let T1 := add32 (add32 (add32 (add32 (rh s) (Sigma1 (re s))) (Ch (re s) (rf s) (rg s))) k) w in
  let T2 := add32 (Sigma0 (ra s)) (Maj (ra s) (rb s) (rc s)) in
  Regs (add32 T1 T2) (ra s) (rb s) (rc s) (add32 (rd s) T1) (re s) (rf s) (rg s).

Definition regs_of (h : list Z) : regs :=
  Regs (nth 0 h 0) (nth 1 h 0) (nth 2 h 0) (nth 3 h 0)
       (nth 4 h 0) (nth 5 h 0) (nth 6 h 0) (nth 7 h 0).
Definition list_of (s : regs) : list Z :=
  [ra s; rb s; rc s; rd s; re s; rf s; rg s; rh s].

Definition compress (h : list Z) (block : list Z) : list Z :=
  let W := schedule 48 (map be_word (chunks 4 16 block)) in
  let s := fold_left round (zip K W) (regs_of h) in
  zip_with add32 h (list_of s).

Definition digest_Z (msg : list Z) : list Z :=
  let p := pad msg in
  let h := fold_left compress (chunks 64 (length p) p) H0 in
  flat_map (be_bytes 4) h.

(** [digest.update(data); digest.finalize()]. *)
Definition sha256 (data : bytes) : bytes :=
  map byte_of_Z (digest_Z (map Z_of_byte data)).

End SHA256.

(** ** Base64 (base64.b64encode) *)

Module Base64.

(** The character of a 6-bit value: A-Z, a-z, 0-9, plus and slash. *)
Definition code (i : Z) : Z :=
  if i <? 26 then 65 + i
  else if i <? 52 then 97 + (i - 26)
  else if i <? 62 then 48 + (i - 52)
  else if i =? 62 then 43 else 47.

Definition char (i : Z) : byte := byte_of_Z (code i).

Definition padc : byte := byte_of_Z 61.

Fixpoint b64encode (l : bytes) : bytes :=
  match l with
  | [] => []
  | [a] =>
      let x := Z_of_byte a in
      [char (x / 4); char (x mod 4 * 16); padc; padc]
  | [a; b] =>
      let x := Z_of_byte a in
      let y := Z_of_byte b in
      [char (x / 4); char (x mod 4 * 16 + y / 16); char (y mod 16 * 4); padc]
  | a :: b :: c :: rest =>
      let x := Z_of_byte a in
      let y := Z_of_byte b in
      let z := Z_of_byte c in
      char (x / 4) :: char (x mod 4 * 16 + y / 16)
        :: char (y mod 16 * 4 + z / 64) :: char (z mod 64) :: b64encode rest
  end.

End Base64.

Definition hex (l : bytes) : string :=
  let d (i : Z) : ascii := ascii_of_N (Z.to_N (if i <? 10 then 48 + i else 87 + i)) in
  fold_right (fun b s => String (d (Z_of_byte b / 16)) (String (d (Z_of_byte b mod 16)) s))
             EmptyString l.

Definition text (s : string) : bytes := String.list_byte_of_string s.

(** ** Requests, responses, documents *)

(** What [json.loads] returns: None, bool, int, float (kept as its
    literal), str, list and dict.  The entries of a dict are in insertion
    order and their keys are pairwise distinct. *)
#[warnings="-register-all"]
Inductive json : Type :=
  | JNull
  | JBool (b : bool)
  | JInt (n : Z)
  | JFloat (literal : string)
  | JStr (s : string)
  | JList (items : list json)
  | JDict (entries : list (string * json)).

(** [request.method], [request.path] (the path of the URL: no scheme, no
    host, no query string; Django keeps the query string in
    [META[QUERY_STRING]]), [request.META] and [request.body]. *)
Record HttpRequest : Type := {
  method : string;
  path : string;
  META : gmap string string;
  body : bytes
}.

Definition with_body (b : bytes) (req : HttpRequest) : HttpRequest :=
  {| method := method req; path := path req; META := META req; body := b |}.

Record HttpResponse : Type := {
  status_code : Z;
  content : string
}.

(** [HttpResponseBadRequest()]: status 400, empty content. *)
Definition HttpResponseBadRequest : HttpResponse :=
  {| status_code := 400; content := "" |}.

(** [JsonResponse(dict(status=OK))]: status 200, the dict as JSON text. *)
Definition JsonResponse_status_OK : HttpResponse :=
  {| status_code := 200;
     content := "{" +:+ quoted "status" +:+ ": " +:+ quoted "OK" +:+ "}" |}.

(** ** Collaborators

    [json.loads] is the standard library's; [core.ld.canonicalise],
    [Identity.by_actor_uri] and [Identity.verify_signature] are imported by
    the view from modules outside this file.  The handler is embedded over
    any behaviour of theirs: each either returns a value or raises.
    [by_actor_uri] may return [None]. *)
Record world : Type := {
  Identity : Type;
  json_loads : bytes -> result json;
  canonicalise : json -> result json;
  by_actor_uri : json -> result (option Identity);
  verify_signature : Identity -> string -> string -> result bool
}.

(** ** The handler's effects: what it prints and whom it calls *)

Inductive event (w : world) : Type :=
  | Print (line : string)
  | PrintDocument (document : json)
  | Hashed (data : bytes)
  | JsonLoads (data : bytes)
  | Canonicalise (document : json)
  | ByActorUri (uri : json)
  | VerifySignature (identity : Identity w) (signature signed_string : string).
Arguments Print {w} line.
Arguments PrintDocument {w} document.
Arguments Hashed {w} data.
Arguments JsonLoads {w} data.
Arguments Canonicalise {w} document.
Arguments ByActorUri {w} uri.
Arguments VerifySignature {w} identity signature signed_string.

(** A run is the events so far and then a value or an uncaught exception. *)
Definition M (w : world) (A : Type) : Type := list (event w) * result A.

Definition ret {w : world} {A : Type} (a : A) : M w A := ([], Ok a).
Definition raise {w : world} {A : Type} (e : exn) : M w A := ([], Raise e).
Definition lift {w : world} {A : Type} (r : result A) : M w A := ([], r).
Definition emit {w : world} (ev : event w) : M w unit := ([ev], Ok tt).
Definition bind {w : world} {A B : Type} (m : M w A) (f : A -> M w B) : M w B :=
  match m with
  | (t, Ok a) => let '(t', r) := f a in (t ++ t', r)
  | (t, Raise e) => (t, Raise e)
  end.

#[export] Instance M_ret (w : world) : MRet (M w) := fun A a => ret a.
#[export] Instance M_bind (w : world) : MBind (M w) := fun A B f m => bind m f.

(** [print(text)]. *)
Definition print {w : world} (line : string) : M w unit := emit (Print line).

(** A call of a collaborator: the call is recorded, then its result or its
    exception comes back. *)
Definition call {w : world} {A : Type} (ev : event w) (r : result A) : M w A :=
  emit ev;; lift r.

Definition events {w : world} {A : Type} (m : M w A) : list (event w) := fst m.
Definition outcome {w : world} {A : Type} (m : M w A) : result A := snd m.

(** ** Dictionaries *)

(** [d[key]] on a dict with string keys. *)
Definition getitem (d : gmap string string) (key : string) : result string :=
  match d !! key with
  | Some v => Ok v
  | None => Raise (KeyError key)
  end.

(** [document[key]] on a decoded document: a dict is looked up, anything
    else is not subscriptable by a str. *)
Fixpoint assoc (key : string) (entries : list (string * json)) : option json :=
  match entries with
  | [] => None
  | (k, v) :: rest => if String.eqb key k then Some v else assoc key rest
  end.

Definition json_getitem (document : json) (key : string) : result json :=
  match document with
  | JDict entries =>
      match assoc key entries with
      | Some v => Ok v
      | None => Raise (KeyError key)
      end
  | _ => Raise TypeError
  end.

(** A dict in insertion order, as [headers] is used at lines 163-172:
    setting a key that is there replaces its value in place, a new key goes
    to the end. *)
Definition odict : Type := list (string * string).

Fixpoint odict_set (k v : string) (d : odict) : odict :=
  match d with
  | [] => [(k, v)]
  | (k', v') :: d' =>
      if String.eqb k k' then (k, v) :: d' else (k', v') :: odict_set k v d'
  end.

(** ** Inbox.post, lines 138-181 *)

Definition newline : string := String (ascii_of_N 10) EmptyString.

Definition unpack_error : exn :=
  ValueError "not enough values to unpack (expected 2, got 1)".

(** Lines 143-147: every comma-separated item is cut at its first equals
    sign, the value loses the double quotes at both ends, and the pair goes
    into the dict.  An item with no equals sign cannot be unpacked into
    [name, value]. *)
Fixpoint split_signature (items : list string) (signature_details : gmap string string)
  : result (gmap string string) :=
  match items with
  | [] => Ok signature_details
  | item :: rest =>
      match Str.split_once "=" item with
      | Some (name, value) =>
          split_signature rest (<[name := Str.strip dquote value]> signature_details)
      | None => Raise unpack_error
      end
  end.

Definition parse_signature (header : string) : result (gmap string string) :=
  split_signature (Str.split "," header) ∅.

(** Lines 154-158: the value a [Digest] header must have for this body. *)
Definition digest_header (data : bytes) : result string :=
  match decode_ascii (Base64.b64encode (SHA256.sha256 data)) with
  | Ok b64 => Ok ("SHA-256=" +:+ b64)
  | Raise e => Raise e
  end.

(** Lines 165-170: the value of one line of the signed payload. *)
Definition header_value (req : HttpRequest) (header_name : string) : result string :=
  if String.eqb header_name "(request-target)" then Ok ("post " +:+ path req)
  else if String.eqb header_name "content-type" then getitem (META req) "CONTENT_TYPE"
  else match Str.upper header_name with
       | Some u => getitem (META req) ("HTTP_" +:+ u)
       | None => Raise (KeyError ("HTTP_" +:+ header_name))
         (* the key has a code point above 255: no key of [META] *)
       end.

(** Lines 163-171: the loop over the names of the [headers] field. *)
Fixpoint collect_headers (req : HttpRequest) (names : list string) (headers : odict)
  : result odict :=
  match names with
  | [] => Ok headers
  | header_name :: rest =>
      match header_value req header_name with
      | Ok value => collect_headers req rest (odict_set header_name value headers)
      | Raise e => Raise e
      end
  end.

(** The f-string of line 172. *)
Definition line (entry : string * string) : string :=
  fst entry +:+ ": " +:+ snd entry.

(** Line 172. *)
Definition join_lines (headers : odict) : string :=
  Str.join newline (map line headers).

(** Lines 162-172. *)
Definition signed_string_of (req : HttpRequest) (signature_details : gmap string string)
  : result string :=
  match getitem signature_details "headers" with
  | Ok covered =>
      match collect_headers req (Str.split_ws covered) [] with
      | Ok headers => Ok (join_lines headers)
      | Raise e => Raise e
      end
  | Raise e => Raise e
  end.

Section Handler.

Variable w : world.

(** Lines 152-161: [Some response] is an early return. *)
Definition check_digest (req : HttpRequest) : M w (option HttpResponse) :=
  match META req !! "HTTP_DIGEST" with
  | Some sent =>
      expected ← call (Hashed (body req)) (digest_header (body req));
      if negb (String.eqb sent expected)
      then print "Bad digest";; ret (Some HttpResponseBadRequest)
      else ret None
  | None => ret None
  end.

(** Lines 173-181.  In line 178 the attribute [verify_signature] of the
    identity is looked up before the arguments are evaluated. *)
Definition check_signature (req : HttpRequest)
    (signature_details : gmap string string) (signed_string : string)
  : M w HttpResponse :=
  decoded ← call (JsonLoads (body req)) (json_loads w (body req));
  document ← call (Canonicalise decoded) (canonicalise w decoded);
  emit (PrintDocument document);;
  actor ← lift (json_getitem document "actor");
  found ← call (ByActorUri actor) (by_actor_uri w actor);
  match found with
  | None => raise AttributeError
  | Some identity =>
      signature ← lift (getitem signature_details "signature");
      valid ← call (VerifySignature identity signature signed_string)
                   (verify_signature w identity signature signed_string);
      if negb valid
      then print "Bad signature";; ret HttpResponseBadRequest
      else ret JsonResponse_status_OK
  end.

(** Lines 148-181: the handler once [signature_details] is filled. *)
Definition post_details (req : HttpRequest) (signature_details : gmap string string)
  : M w HttpResponse :=
  algorithm ← lift (getitem signature_details "algorithm");
  if negb (String.eqb algorithm "rsa-sha256")
  then print "Unknown algorithm";; ret HttpResponseBadRequest
  else
    early ← check_digest req;
    match early with
    | Some response => ret response
    | None =>
        signed_string ← lift (signed_string_of req signature_details);
        check_signature req signature_details signed_string
    end.

Definition post (req : HttpRequest) : M w HttpResponse :=
  match META req !! "HTTP_SIGNATURE" with
  | None => print "No signature";; ret HttpResponseBadRequest
  | Some header =>
      signature_details ← lift (parse_signature header);
      post_details req signature_details
  end.

End Handler.

(** ** A concrete world for the examples

    One remote actor, whose key accepts one signature over one signed
    string; a decoder that knows two documents of that actor
    and one of a stranger, and refuses every other body (as [json.loads]
    refuses the body [not json]); a canonicaliser that finds these
    documents already canonical. *)
Module Demo.

Definition alice : string := "https://remote.example/users/alice".

Definition note : string :=
  "{" +:+ quoted "actor" +:+ ": " +:+ quoted alice +:+ ", "
      +:+ quoted "type" +:+ ": " +:+ quoted "Follow" +:+ "}".
Definition tampered_note : string :=
  "{" +:+ quoted "actor" +:+ ": " +:+ quoted alice +:+ ", "
      +:+ quoted "type" +:+ ": " +:+ quoted "Delete" +:+ "}".

(** A document of an actor nobody here has heard of. *)
Definition stranger_note : string :=
  "{" +:+ quoted "actor" +:+ ": " +:+ quoted "https://remote.example/users/bob" +:+ "}".

Definition host_date_payload : string :=
  "(request-target): post /actor/123/inbox/" +:+ newline
  +:+ "host: example.com" +:+ newline
  +:+ "date: Wed, 01 Jan 2020 00:00:00 GMT".

Definition signature_b64 : string := "c2lnbmVkIGJ5IGFsaWNl".

Definition bytes_eqb (a b : bytes) : bool :=
  String.eqb (String.string_of_list_byte a) (String.string_of_list_byte b).

Definition world : world := {|
  Identity := string;
  json_loads data :=
    if bytes_eqb data (text note)
    then Ok (JDict [("actor", JStr alice); ("type", JStr "Follow")])
    else if bytes_eqb data (text tampered_note)
    then Ok (JDict [("actor", JStr alice); ("type", JStr "Delete")])
    else if bytes_eqb data (text stranger_note)
    then Ok (JDict [("actor", JStr "https://remote.example/users/bob")])
    else Raise JSONDecodeError;
  canonicalise document := Ok document;
  by_actor_uri uri :=
    match uri with
    | JStr u => if String.eqb u alice then Ok (Some alice) else Ok None
    | _ => Ok None
    end;
  verify_signature identity signature signed_string :=
    Ok (String.eqb identity alice && String.eqb signature signature_b64
        && String.eqb signed_string host_date_payload)
|}.

(** The value of a [Signature] header with the given fields. *)
Definition field (name value : string) : string := name +:+ "=" +:+ quoted value.

Definition signature_header (algorithm covered : string) : string :=
  Str.join "," [field "keyId" (alice +:+ "#main-key"); field "algorithm" algorithm;
                field "headers" covered; field "signature" signature_b64].

Definition meta (sig : string) : gmap string string :=
  <["HTTP_SIGNATURE" := sig]>
    (<["HTTP_HOST" := "example.com"]>
      (<["HTTP_DATE" := "Wed, 01 Jan 2020 00:00:00 GMT"]>
        (<["CONTENT_TYPE" := "application/activity+json"]> ∅))).

Definition request (sig : string) (data : string) : HttpRequest :=
  {| method := "POST"; path := "/actor/123/inbox/"; META := meta sig; body := text data |}.

Definition signed_request : HttpRequest :=
  request (signature_header "rsa-sha256" "(request-target) host date") note.

(** What the handler reads in the signature header of [signed_request]. *)
Definition details_of_signed_request : gmap string string :=
  <["signature" := signature_b64]>
    (<["headers" := "(request-target) host date"]>
      (<["algorithm" := "rsa-sha256"]>
        (<["keyId" := alice +:+ "#main-key"]> ∅))).

(** [note] with the last letter of Follow changed in its lowest bit. *)
Definition one_bit_note : string :=
  "{" +:+ quoted "actor" +:+ ": " +:+ quoted alice +:+ ", "
      +:+ quoted "type" +:+ ": " +:+ quoted "Follov" +:+ "}".


(** A signature header that names no key. *)
Definition signature_header_without_keyId : string :=
  Str.join "," [field "algorithm" "rsa-sha256";
                field "headers" "(request-target) host date";
                field "signature" signature_b64].

(** A request with one more entry in [META]. *)
Definition with_meta (key value : string) (req : HttpRequest) : HttpRequest :=
  {| method := method req; path := path req;
     META := <[key := value]> (META req); body := body req |}.

(** A request that also carries a [Digest] header. *)
Definition with_digest (digest : string) (req : HttpRequest) : HttpRequest :=
  {| method := method req; path := path req;
     META := <["HTTP_DIGEST" := digest]> (META req); body := body req |}.

End Demo.

(** ** Vocabulary of the properties *)



(** The text of a [Digest] header for a body: the scheme, an equals sign
    and the Base64 text of the SHA-256 digest. *)
Definition b64text (data : bytes) : string :=
  String.string_of_list_byte (Base64.b64encode data).

Definition digest_text (data : bytes) : string :=
  "SHA-256=" +:+ b64text (SHA256.sha256 data).

(** [data] with its bit [i] flipped; bit 0 is the lowest bit of the first
    byte. *)
Fixpoint flip_bit (i : nat) (data : bytes) : bytes :=
  match data with
  | [] => []
  | b :: rest =>
      if (i <? 8)%nat then byte_of_Z (Z.lxor (Z_of_byte b) (2 ^ Z.of_nat i)) :: rest
      else b :: flip_bit (i - 8) rest
  end.


(** The key under which a WSGI server files a request header (PEP 3333,
    Django's [HttpRequest.META]): [HTTP_], then the name in capitals with
    every hyphen turned into an underscore. *)
Fixpoint hyphens_to_underscores (s : string) : string :=
  match s with
  | EmptyString => EmptyString
  | String a s' =>
      String (if Ascii.eqb a "-" then "_"%char else a) (hyphens_to_underscores s')
  end.

Definition wsgi_key (name : string) : option string :=
  match Str.upper name with
  | Some u => Some ("HTTP_" +:+ hyphens_to_underscores u)
  | None => None
  end.

(** The request passes lines 139-172: the signature header splits into
    [signature_details] and declares rsa-sha256, the digest check lets it
    through, and the signed payload is [signed_string]. *)
Definition reaches_body (w : world) (req : HttpRequest)
    (signature_details : gmap string string) (signed_string : string) : Prop :=
  exists header : string,
    META req !! "HTTP_SIGNATURE" = Some header
    /\ parse_signature header = Ok signature_details
    /\ signature_details !! "algorithm" = Some "rsa-sha256"
    /\ outcome (check_digest w req) = Ok None
    /\ signed_string_of req signature_details = Ok signed_string.

(** The names of a list in the order of their first occurrence. *)
Fixpoint first_occurrences (seen names : list string) : list string :=
  match names with
  | [] => []
  | n :: rest =>
      if bool_decide (n ∈ seen) then first_occurrences seen rest
      else n :: first_occurrences (n :: seen) rest
  end.

(** A signature header written out from its fields, as a sender does:
    [name=value] pairs, each value in double quotes, joined by commas. *)
Definition render_field (f : string * string) : string :=
  fst f +:+ "=" +:+ quoted (snd f).
Definition render_signature (fields : list (string * string)) : string :=
  Str.join "," (map render_field fields).

(** What the loop of lines 144-147 leaves in the dict for such fields. *)
Definition details_of (fields : list (string * string)) : gmap string string :=
  fold_left (fun d f => <[fst f := snd f]> d) fields ∅.

Fixpoint any_char (p : ascii -> bool) (s : string) : bool :=
  match s with
  | EmptyString => false
  | String a s' => p a || any_char p s'
  end.

Definition occurs (c : ascii) (s : string) : bool := any_char (Ascii.eqb c) s.

(** A field a comma-splitting reader can take: no comma and no equals sign
    in the name, no comma and no double quote in the value. *)
Definition plain_field (f : string * string) : bool :=
  negb (occurs "," (fst f)) && negb (occurs "=" (fst f))
  && negb (occurs "," (snd f)) && negb (occurs dquote (snd f)).


(** The names held by a dict in insertion order. *)
Definition keys (d : odict) : list string := map fst d.

(** Every entry of [headers] holds the value the request gives its name. *)
Definition values_of (req : HttpRequest) (d : odict) : Prop :=
  Forall (fun e => header_value req (fst e) = Ok (snd e)) d.

(** The events that hand the body, the actor or the signature to a
    collaborator, or print the document. *)
Definition after_checks {w : world} (ev : event w) : bool :=
  match ev with
  | Print _ | Hashed _ => false
  | _ => true
  end.

(** A field whose name follows a comma and a space in the header. *)
Definition spaced (f : string * string) : string * string :=
  (" " +:+ fst f, snd f).

(** ** The other views of the file

    Form fields, query parameters and database values are Python [str]s
    of any code points, not only of those below 256: a list of code
    points. *)
Definition ustr : Type := list N.

(** The code points of a literal. *)
Definition U (s : string) : ustr := map N_of_ascii (String.list_ascii_of_string s).

(** [s.lstrip(c)] for one character. *)
Fixpoint ulstrip (c : N) (s : ustr) : ustr :=
  match s with
  | [] => []
  | x :: s' => if (x =? c)%N then ulstrip c s' else s
  end.

(** [s.startswith(prefix)]. *)
Fixpoint startswith (prefix s : ustr) : bool :=
  match prefix, s with
  | [], _ => true
  | _ :: _, [] => false
  | p :: prefix', x :: s' => (p =? x)%N && startswith prefix' s'
  end.

(** What the views read of a row of [users.models.Identity]: [id],
    [handle], [short_handle], [public_key], and the paths [urls.view],
    [urls.actor] and [urls.inbox] as they are formatted into text. *)
Module Models.

Record Identity : Type := {
  id : Z;
  handle : ustr;
  short_handle : ustr;
  public_key : ustr;
  urls_view : ustr;
  urls_actor : ustr;
  urls_inbox : ustr
}.

End Models.

(** [raise Http404()]. *)
Definition Http404 : exn := Raised "Http404".

(** The data handed to [JsonResponse]: text, lists, and dicts with literal
    keys in the order they are written. *)
#[warnings="-register-all"]
Inductive pydata : Type :=
  | PStr (s : ustr)
  | PList (items : list pydata)
  | PDict (entries : list (string * pydata)).

(** [data[key]] and [data[i]] on that data, [None] where Python raises. *)
Fixpoint pfind (key : string) (entries : list (string * pydata)) : option pydata :=
  match entries with
  | [] => None
  | (k, v) :: rest => if String.eqb key k then Some v else pfind key rest
  end.

Definition pget (key : string) (data : pydata) : option pydata :=
  match data with
  | PDict entries => pfind key entries
  | _ => None
  end.

Definition pitem (i : nat) (data : pydata) : option pydata :=
  match data with
  | PList items => items !! i
  | _ => None
  end.

(** *** CreateIdentity.form_class.clean_handle, lines 73-93 *)
Module CreateIdentity.

(** The cleaned value, or the message of the [ValidationError] raised. *)
Inductive cleaned : Type :=
  | Cleaned (value : ustr)
  | ValidationError (message : string).

(** [string.ascii_letters + string.digits] and the underscore and the dash, the letters being the
    lowercase ones and then the uppercase ones. *)
Definition allowed_characters : ustr :=
  U "abcdefghijklmnopqrstuvwxyzABCDEFGHIJKLMNOPQRSTUVWXYZ" ++ U "0123456789" ++ U "_-".

Definition only_letters_message : string :=
  "Only the letters a-z, numbers 0-9, dashes and underscores are allowed.".
Definition at_sign_message : string :=
  "You are not allowed an @ sign in your handle.".
Definition taken_message : string := "This handle is already taken".

Definition at_sign : N := 64.

(** The loop of lines 77-81: [false] when a character raises. *)
Fixpoint characters_pass (value : ustr) : bool :=
  match value with
  | [] => true
  | character :: rest =>
      if bool_decide (character ∈ allowed_characters) then characters_pass rest
      else false
  end.

Section Clean.

(** [settings.DEFAULT_DOMAIN], and whether
    [Identity.objects.filter(handle=value).exists()]. *)
Variable DEFAULT_DOMAIN : ustr.
Variable handle_exists : ustr -> bool.

Definition clean_handle (cleaned_handle : ustr) : cleaned :=
  let value := ulstrip at_sign cleaned_handle in
  if negb (characters_pass value) then ValidationError only_letters_message
  else if bool_decide (at_sign ∈ value) then ValidationError at_sign_message
  else
    let value :=
      if negb (bool_decide (at_sign ∈ value)) then value ++ [at_sign] ++ DEFAULT_DOMAIN
      else value in
    if handle_exists value then ValidationError taken_message
    else Cleaned value.

End Clean.

End CreateIdentity.

(** *** ActivateIdentity.get, lines 50-59 *)
Module ActivateIdentity.

(** [redirect(to)]. *)
Inductive redirected : Type := Redirect (location : ustr).

Section Get.

(** [by_handle_or_404(request, handle)] for the request at hand, and
    whether [identity.users.filter(pk=pk).exists()]. *)
Variable by_handle_or_404 : ustr -> result Models.Identity.
Variable has_user : Models.Identity -> Z -> bool.

(** Lines 55-58: the next URL, not allowing offsite links. *)
Definition next_url (GET_next : option ustr) : ustr :=
  let next := match GET_next with
              | Some (c :: rest) => c :: rest
              | _ => U "/"
              end in
  if bool_decide (58%N ∈ next) then U "/" else next.

(** The view for the user [user_pk], with the value of
    [request.GET.get(next)] and the session; it gives the session back. *)
Definition get (user_pk : Z) (GET_next : option ustr) (session : gmap string Z)
    (handle : ustr) : gmap string Z * result redirected :=
  match by_handle_or_404 handle with
  | Raise e => (session, Raise e)
  | Ok who =>
      if negb (has_user who user_pk) then (session, Raise Http404)
      else
        let session := <["identity_id" := Models.id who]> session in
        let next := next_url GET_next in
        (session, Ok (Redirect (U "/")))
  end.

End Get.

End ActivateIdentity.

(** *** Actor.get (lines 111-129) and Webfinger.get (lines 189-214) *)
Module Federation.

Section Views.

Variable DEFAULT_DOMAIN : ustr.
Variable by_handle_or_404 : ustr -> result Models.Identity.

(** The run of a view: the handles it looked up, and its answer. *)
Definition looked_up (A : Type) : Type := list ustr * result A.

Definition find (handle : ustr) : looked_up Models.Identity :=
  ([handle], by_handle_or_404 handle).

Definition Actor_get (handle : ustr) : looked_up pydata :=
  match find handle with
  | (t, Raise e) => (t, Raise e)
  | (t, Ok who) =>
      (t, Ok (PDict
        [("@context", PList [PStr (U "https://www.w3.org/ns/activitystreams");
                             PStr (U "https://w3id.org/security/v1")]);
         ("id", PStr (U "https://" ++ DEFAULT_DOMAIN ++ Models.urls_actor who));
         ("type", PStr (U "Person"));
         ("preferredUsername", PStr (Models.short_handle who));
         ("inbox", PStr (U "https://" ++ DEFAULT_DOMAIN ++ Models.urls_inbox who));
         ("publicKey", PDict
            [("id", PStr (U "https://" ++ DEFAULT_DOMAIN ++ Models.urls_actor who
                          ++ U "#main-key"));
             ("owner", PStr (U "https://" ++ DEFAULT_DOMAIN ++ Models.urls_actor who));
             ("publicKeyPem", PStr (Models.public_key who))])]))
  end.

Definition Webfinger_get (GET_resource : option ustr) : looked_up pydata :=
  match GET_resource with
  | None => ([], Raise AttributeError)
  | Some resource =>
      if negb (startswith (U "acct:") resource) then ([], Raise Http404)
      else
        let handle := drop 5 resource in
        match find handle with
        | (t, Raise e) => (t, Raise e)
        | (t, Ok who) =>
            (t, Ok (PDict
              [("subject", PStr (U "acct:" ++ Models.handle who));
               ("aliases",
                PList [PStr (U "https://" ++ DEFAULT_DOMAIN ++ U "/@"
                             ++ Models.short_handle who)]);
               ("links",
                PList
                  [PDict [("rel", PStr (U "http://webfinger.net/rel/profile-page"));
                          ("type", PStr (U "text/html"));
                          ("href", PStr (U "https://" ++ DEFAULT_DOMAIN
                                         ++ Models.urls_view who))];
                   PDict [("rel", PStr (U "self"));
                          ("type", PStr (U "application/activity+json"));
                          ("href", PStr (U "https://" ++ DEFAULT_DOMAIN
                                         ++ Models.urls_actor who))]])]))
        end
  end.

End Views.

End Federation.

(** A site for the examples: one local identity and its owner. *)
Module Site.

Definition domain : ustr := U "example.com".

Definition bob : Models.Identity := {|
  Models.id := 7;
  Models.handle := U "bob@example.com";
  Models.short_handle := U "bob";
  Models.public_key := U "-----BEGIN PUBLIC KEY-----";
  Models.urls_view := U "/@bob@example.com/";
  Models.urls_actor := U "/@bob@example.com/actor/";
  Models.urls_inbox := U "/@bob@example.com/actor/inbox/"
|}.

Definition by_handle_or_404 (h : ustr) : result Models.Identity :=
  if bool_decide (h = U "bob@example.com") then Ok bob else Raise Http404.

Definition has_user (row : Models.Identity) (pk : Z) : bool :=
  (Models.id row =? 7) && (pk =? 1).

Definition handle_exists (h : ustr) : bool := bool_decide (h = U "bob@example.com").

End Site.

(** * Properties *)

(** ** The built-ins on examples *)

Example split_commas :
  Str.split "," "a,b,,c" = ["a"; "b"; ""; "c"] /\ Str.split "," "" = [""].
Proof. split; reflexivity. Qed.

Example split_once_example :
  Str.split_once "=" ("signature=" +:+ quoted "YQ==") = Some ("signature", quoted "YQ==")
  /\ Str.split_once "=" "nokey" = None.
Proof. split; reflexivity. Qed.

Example strip_quotes :
  Str.strip dquote (quoted (quoted ("a" +:+ String dquote "b"))) = "a" +:+ String dquote "b"
  /\ Str.strip dquote (String dquote "") = "".
Proof. split; reflexivity. Qed.

Example split_ws_runs :
  Str.split_ws "  (request-target)  host date " = ["(request-target)"; "host"; "date"].
Proof. reflexivity. Qed.

Example upper_examples :
  Str.upper "x-Foo" = Some "X-FOO" /\ Str.upper (String (ascii_of_N 223) "") = Some "SS"
  /\ Str.upper (String (ascii_of_N 255) "") = None.
Proof. repeat split; reflexivity. Qed.

Example sha256_vectors :
  hex (SHA256.sha256 (text ""))
  = "e3b0c44298fc1c149afbf4c8996fb92427ae41e4649b934ca495991b7852b855"
  /\ hex (SHA256.sha256 (text "abc"))
     = "ba7816bf8f01cfea414140de5dae2223b00361a396177a9cb410ff61f20015ad"
  /\ hex (SHA256.sha256
            (text "abcdbcdecdefdefgefghfghighijhijkijkljklmklmnlmnomnopnopq"))
     = "248d6a61d20638b8e5c026930c3e6039a33ce45964ff2167f6ecedd419db06c1".
Proof. repeat split; vm_compute; reflexivity. Qed.

Example b64encode_padding :
  b64text (text "a") = "YQ==" /\ b64text (text "ab") = "YWI="
  /\ b64text (text "abc") = "YWJj".
Proof. repeat split; vm_compute; reflexivity. Qed.

Example digest_of_empty_body :
  digest_header [] = Ok "SHA-256=47DEQpj8HBSa+/TImW+5JCeuQeRkm5NMpJWZG3hSuFU=".
Proof. vm_compute. reflexivity. Qed.

(** ** Running the handler *)

Lemma bind_ok {w : world} {A B : Type} (t : list (event w)) (a : A) (f : A -> M w B) :
  (t, Ok a) ≫= f = (t ++ events (f a), outcome (f a)).
Proof. unfold mbind, M_bind, bind, events, outcome. by destruct (f a). Qed.

Lemma ret_bind {w : world} {A B : Type} (a : A) (f : A -> M w B) :
  (([], Ok a) : M w A) ≫= f = f a.
Proof. rewrite bind_ok. unfold events, outcome. by destruct (f a). Qed.

Lemma bind_raise {w : world} {A B : Type} (t : list (event w)) (e : exn) (f : A -> M w B) :
  (t, Raise e) ≫= f = (t, Raise e).
Proof. reflexivity. Qed.

Lemma lift_bind {w : world} {A B : Type} (r : result A) (f : A -> M w B) :
  lift r ≫= f = match r with Ok a => f a | Raise e => ([], Raise e) end.
Proof.
  unfold lift. destruct r as [a|e]; [|reflexivity].
  rewrite bind_ok. simpl. by destruct (f a).
Qed.

Lemma call_bind {w : world} {A B : Type} (ev : event w) (r : result A) (f : A -> M w B) :
  call ev r ≫= f
  = match r with
    | Ok a => (ev :: events (f a), outcome (f a))
    | Raise e => ([ev], Raise e)
    end.
Proof.
  unfold call, emit, lift. destruct r as [a|e]; simpl; [|reflexivity].
  unfold mbind, M_bind, bind, events, outcome. simpl. by destruct (f a).
Qed.

Lemma append_empty_l (s : string) : "" +:+ s = s.
Proof. reflexivity. Qed.

Lemma append_cons (a : ascii) (s t : string) : String a s +:+ t = String a (s +:+ t).
Proof. reflexivity. Qed.


Lemma append_assoc (a b c : string) : (a +:+ b) +:+ c = a +:+ (b +:+ c).
Proof. induction a as [|x a IH]; [done|by rewrite !append_cons, IH]. Qed.

Lemma eqb_string_neq (a b : string) : a ≠ b -> String.eqb a b = false.
Proof. intros H. by apply String.eqb_neq. Qed.

Lemma getitem_Some (d : gmap string string) (k v : string) :
  d !! k = Some v -> getitem d k = Ok v.
Proof. unfold getitem. by intros ->. Qed.

Lemma getitem_None (d : gmap string string) (k : string) :
  d !! k = None -> getitem d k = Raise (KeyError k).
Proof. unfold getitem. by intros ->. Qed.

(** ** The algorithm check (lines 148-151) *)



(** ** Bytes and Base64 *)

Lemma Z_of_byte_range (b : byte) : 0 <= Z_of_byte b < 256.
Proof.
  unfold Z_of_byte. pose proof (Byte.to_N_bounded b). lia.
Qed.

Lemma Z_of_byte_inj (a b : byte) : Z_of_byte a = Z_of_byte b -> a = b.
Proof.
  unfold Z_of_byte. intros H. apply N2Z.inj in H.
  pose proof (Byte.of_to_N a) as Ha. rewrite H, Byte.of_to_N in Ha. congruence.
Qed.

Lemma Z_of_byte_of_Z (z : Z) : 0 <= z < 256 -> Z_of_byte (byte_of_Z z) = z.
Proof.
  intros Hz. unfold Z_of_byte, byte_of_Z. rewrite Z.mod_small by lia.
  destruct (Byte.of_N (Z.to_N z)) as [b|] eqn:E.
  - apply Byte.to_of_N in E. simpl. lia.
  - apply Byte.of_N_None_iff in E. lia.
Qed.

(** Induction over a list three elements at a time, as [b64encode] reads it. *)
Lemma list_ind3 {A : Type} (P : list A -> Prop) :
  P [] -> (forall a, P [a]) -> (forall a b, P [a; b]) ->
  (forall a b c l, P l -> P (a :: b :: c :: l)) ->
  forall l, P l.
Proof.
  intros H0 H1 H2 H3 l.
  cut (P l /\ (forall a, P (a :: l)) /\ (forall a b, P (a :: b :: l))); [tauto|].
  induction l as [|x l (IH0 & IH1 & IH2)]; [tauto|].
  repeat split; auto.
Qed.

Module Base64Facts.
Import Base64.

Lemma code_range (i : Z) : 0 <= i < 64 -> 43 <= code i < 123.
Proof. unfold code. repeat case_match; lia. Qed.

Lemma code_inj (i j : Z) : 0 <= i < 64 -> 0 <= j < 64 -> code i = code j -> i = j.
Proof. unfold code. repeat case_match; lia. Qed.

Lemma code_not_pad (i : Z) : 0 <= i < 64 -> code i ≠ 61.
Proof. unfold code. repeat case_match; lia. Qed.

Lemma char_code (i : Z) : 0 <= i < 64 -> Z_of_byte (char i) = code i.
Proof. intros Hi. pose proof (code_range i Hi). apply Z_of_byte_of_Z. lia. Qed.

Lemma char_inj (i j : Z) : 0 <= i < 64 -> 0 <= j < 64 -> char i = char j -> i = j.
Proof.
  intros Hi Hj H. apply code_inj; [done..|].
  rewrite <- (char_code i), <- (char_code j) by done. by rewrite H.
Qed.

Lemma char_not_pad (i : Z) : 0 <= i < 64 -> char i ≠ padc.
Proof.
  intros Hi H. apply (code_not_pad i Hi). rewrite <- (char_code i), H by done.
  reflexivity.
Qed.

Lemma char_ascii (i : Z) : 0 <= i < 64 -> (Byte.to_N (char i) <? 128)%N = true.
Proof.
  intros Hi. pose proof (code_range i Hi). pose proof (char_code i Hi) as H'.
  unfold Z_of_byte in H'. apply N.ltb_lt. lia.
Qed.

Lemma padc_ascii : (Byte.to_N padc <? 128)%N = true.
Proof. reflexivity. Qed.

Ltac group_bounds :=
  repeat match goal with
  | b : byte |- _ =>
      lazymatch goal with
      | _ : 0 <= Z_of_byte b < 256 |- _ => fail
      | _ => pose proof (Z_of_byte_range b)
      end
  end.

Ltac six_bits := group_bounds; Z.div_mod_to_equations; lia.

(** The output of [b64encode] is ASCII, so [decode(ascii)] returns it. *)
Lemma decode_b64encode (l : bytes) :
  decode_ascii (b64encode l) = Ok (String.string_of_list_byte (b64encode l)).
Proof.
  induction l as [|a|a b|a b c l IH] using list_ind3; [reflexivity|..];
    cbn [b64encode decode_ascii];
    rewrite ?char_ascii, ?padc_ascii by six_bits; cbn [decode_ascii];
    rewrite ?IH; reflexivity.
Qed.

(** Three bytes are determined by their four 6-bit groups. *)
Lemma groups_inj (x y z x' y' z' : Z) :
  0 <= x < 256 -> 0 <= y < 256 -> 0 <= z < 256 ->
  0 <= x' < 256 -> 0 <= y' < 256 -> 0 <= z' < 256 ->
  x / 4 = x' / 4 -> x mod 4 * 16 + y / 16 = x' mod 4 * 16 + y' / 16 ->
  y mod 16 * 4 + z / 64 = y' mod 16 * 4 + z' / 64 -> z mod 64 = z' mod 64 ->
  x = x' /\ y = y' /\ z = z'.
Proof. intros. Z.div_mod_to_equations. lia. Qed.

Ltac pad_clash :=
  match goal with
  | H : char _ = padc |- _ => exfalso; eapply char_not_pad; [|exact H]; six_bits
  | H : padc = char _ |- _ => exfalso; eapply char_not_pad; [|symmetry; exact H]; six_bits
  end.

Ltac same_groups :=
  repeat match goal with
  | H : char _ = char _ |- _ => apply char_inj in H; [|six_bits..]
  end.

(** [b64encode] loses nothing: equal texts come from equal bytes. *)
Lemma b64encode_inj (l1 l2 : bytes) : b64encode l1 = b64encode l2 -> l1 = l2.
Proof.
  revert l2.
  induction l1 as [|a|a b|a b c l1 IH] using list_ind3;
    intros [|a' [|b' [|c' l2]]] H; cbn [b64encode] in H;
    try discriminate; try reflexivity;
    injection H; clear H; intros; try pad_clash; same_groups.
  - f_equal. apply Z_of_byte_inj. six_bits.
  - assert (Z_of_byte a = Z_of_byte a' /\ Z_of_byte b = Z_of_byte b') as [Ea Eb]
      by six_bits.
    apply Z_of_byte_inj in Ea, Eb. by subst.
  - assert (Z_of_byte a = Z_of_byte a' /\ Z_of_byte b = Z_of_byte b'
            /\ Z_of_byte c = Z_of_byte c') as (Ea & Eb & Ec) by six_bits.
    apply Z_of_byte_inj in Ea, Eb, Ec. subst. do 3 f_equal. by apply IH.
Qed.

End Base64Facts.

(** ** The digest check (lines 152-161) *)

Lemma digest_header_text (data : bytes) : digest_header data = Ok (digest_text data).
Proof.
  unfold digest_header, digest_text, b64text. by rewrite Base64Facts.decode_b64encode.
Qed.

Lemma string_of_list_byte_inj (a b : bytes) :
  String.string_of_list_byte a = String.string_of_list_byte b -> a = b.
Proof.
  intros H. rewrite <- (String.list_byte_of_string_of_list_byte a),
    <- (String.list_byte_of_string_of_list_byte b). by rewrite H.
Qed.

(** Two bodies have the same digest text only if they have the same digest. *)
Lemma digest_text_inj (a b : bytes) :
  digest_text a = digest_text b -> SHA256.sha256 a = SHA256.sha256 b.
Proof.
  unfold digest_text, b64text. intros H. injection H as H.
  by apply Base64Facts.b64encode_inj, string_of_list_byte_inj.
Qed.

Lemma check_digest_absent (w : world) (req : HttpRequest) :
  META req !! "HTTP_DIGEST" = None -> check_digest w req = ([], Ok None).
Proof. unfold check_digest. by intros ->. Qed.

Lemma check_digest_match (w : world) (req : HttpRequest) :
  META req !! "HTTP_DIGEST" = Some (digest_text (body req)) ->
  check_digest w req = ([Hashed (body req)], Ok None).
Proof.
  unfold check_digest. intros ->.
  by rewrite call_bind, digest_header_text, String.eqb_refl.
Qed.

Lemma check_digest_mismatch (w : world) (req : HttpRequest) (sent : string) :
  META req !! "HTTP_DIGEST" = Some sent -> sent ≠ digest_text (body req) ->
  check_digest w req
  = ([Hashed (body req); Print "Bad digest"], Ok (Some HttpResponseBadRequest)).
Proof.
  unfold check_digest. intros -> Hne.
  by rewrite call_bind, digest_header_text, (eqb_string_neq _ _ Hne).
Qed.

(** The handler up to the digest check: the header splits and declares
    rsa-sha256. *)
Lemma post_after_algorithm (w : world) (req : HttpRequest) (header : string)
    (signature_details : gmap string string) :
  META req !! "HTTP_SIGNATURE" = Some header ->
  parse_signature header = Ok signature_details ->
  signature_details !! "algorithm" = Some "rsa-sha256" ->
  post w req
  = (early ← check_digest w req;
     match early with
     | Some response => ret response
     | None =>
         signed_string ← lift (signed_string_of req signature_details);
         check_signature w req signature_details signed_string
     end).
Proof.
  intros Hsig Hparse Halg. unfold post. rewrite Hsig, Hparse, lift_bind.
  unfold post_details. by rewrite (getitem_Some _ _ _ Halg), lift_bind.
Qed.

(** C8: once the signature header is split and declares rsa-sha256, the
    digest check runs exactly when the request has a [Digest] header.
    Without the header no digest is computed and the handler goes on to the
    signed payload.  With it, the body is hashed and the header is compared
    with the text [SHA-256=] followed by the Base64 of the digest of the
    body as received: an equal header lets the handler go on, any other
    header is answered with the 400 response after the line [Bad digest],
    before the payload is built and before the body is decoded.  This is
    so in particular when the header is the digest text of a body as it was
    signed and the body received has another digest, as that body with one
    bit flipped has unless the two collide under SHA-256. *)
Theorem digest_mismatch_rejected
    (w : world) (req : HttpRequest) (header : string)
    (signature_details : gmap string string) :
  META req !! "HTTP_SIGNATURE" = Some header ->
  parse_signature header = Ok signature_details ->
  signature_details !! "algorithm" = Some "rsa-sha256" ->
  (META req !! "HTTP_DIGEST" = None ->
     post w req
     = (signed_string ← lift (signed_string_of req signature_details);
        check_signature w req signature_details signed_string))
  /\ (forall rest : M w HttpResponse,
        rest = (signed_string ← lift (signed_string_of req signature_details);
                check_signature w req signature_details signed_string) ->
        META req !! "HTTP_DIGEST" = Some (digest_text (body req)) ->
        post w req = (Hashed (body req) :: events rest, outcome rest))
  /\ (forall sent : string,
        META req !! "HTTP_DIGEST" = Some sent ->
        sent ≠ digest_text (body req) ->
        post w req
        = ([Hashed (body req); Print "Bad digest"], Ok HttpResponseBadRequest))
  /\ (forall signed_body : bytes,
        META req !! "HTTP_DIGEST" = Some (digest_text signed_body) ->
        SHA256.sha256 (body req) ≠ SHA256.sha256 signed_body ->
        post w req
        = ([Hashed (body req); Print "Bad digest"], Ok HttpResponseBadRequest))
  /\ (forall (signed_body : bytes) (i : nat),
        META req !! "HTTP_DIGEST" = Some (digest_text signed_body) ->
        body req = flip_bit i signed_body ->
        SHA256.sha256 (flip_bit i signed_body) ≠ SHA256.sha256 signed_body ->
        post w req
        = ([Hashed (body req); Print "Bad digest"], Ok HttpResponseBadRequest)).
Proof.
  intros Hsig Hparse Halg.
  rewrite (post_after_algorithm w req header signature_details Hsig Hparse Halg).
  assert (forall sent : string,
            META req !! "HTTP_DIGEST" = Some sent ->
            sent ≠ digest_text (body req) ->
            (early ← check_digest w req;
             match early with
             | Some response => ret response
             | None =>
                 signed_string ← lift (signed_string_of req signature_details);
                 check_signature w req signature_details signed_string
             end)
            = ([Hashed (body req); Print "Bad digest"], Ok HttpResponseBadRequest))
    as Hmis.
  { intros sent Hd Hne. by rewrite (check_digest_mismatch w req sent Hd Hne). }
  repeat split.
  - intros Hd. by rewrite (check_digest_absent w req Hd), ret_bind.
  - intros rest -> Hd. rewrite (check_digest_match w req Hd). by rewrite bind_ok.
  - exact Hmis.
  - intros signed_body Hd Hne. apply (Hmis _ Hd).
    intros E. apply Hne. symmetry. by apply digest_text_inj.
  - intros signed_body i Hd Hb Hne. apply (Hmis _ Hd).
    intros E. apply Hne. rewrite <- Hb. symmetry. by apply digest_text_inj.
Qed.

Lemma digest_mismatch_rejected_witness :
  post Demo.world
       (with_body (text Demo.one_bit_note)
          (Demo.with_digest (digest_text (text Demo.note)) Demo.signed_request))
  = ([Hashed (text Demo.one_bit_note); Print "Bad digest"], Ok HttpResponseBadRequest).
Proof.
  refine (proj2 (proj2 (proj2 (proj2
    (digest_mismatch_rejected Demo.world
       (with_body (text Demo.one_bit_note)
          (Demo.with_digest (digest_text (text Demo.note)) Demo.signed_request))
       (Demo.signature_header "rsa-sha256" "(request-target) host date")
       _ _ _ _)))) (text Demo.note) 496%nat _ _ _).
  - vm_compute. reflexivity.
  - reflexivity.
  - vm_compute. reflexivity.
  - vm_compute. reflexivity.
  - vm_compute. reflexivity.
  - vm_compute. discriminate.
Defined.

(** ** The signed payload does not read the body *)

Lemma collect_headers_with_body (b : bytes) (req : HttpRequest) (names : list string)
    (headers : odict) :
  collect_headers (with_body b req) names headers = collect_headers req names headers.
Proof.
  revert headers. induction names as [|n names IH]; intros headers; [reflexivity|].
  cbn [collect_headers].
  change (header_value (with_body b req) n) with (header_value req n).
  destruct (header_value req n); [apply IH|reflexivity].
Qed.

Lemma signed_string_of_with_body (b : bytes) (req : HttpRequest)
    (signature_details : gmap string string) :
  signed_string_of (with_body b req) signature_details
  = signed_string_of req signature_details.
Proof.
  unfold signed_string_of. destruct (getitem _ _); [|reflexivity].
  by rewrite collect_headers_with_body.
Qed.

(** The last stage when every collaborator answers and the key accepts. *)
Lemma check_signature_trusted (w : world) (req : HttpRequest)
    (signature_details : gmap string string) (signed_string signature : string)
    (decoded document actor : json) (identity : Identity w) :
  signature_details !! "signature" = Some signature ->
  json_loads w (body req) = Ok decoded ->
  canonicalise w decoded = Ok document ->
  json_getitem document "actor" = Ok actor ->
  by_actor_uri w actor = Ok (Some identity) ->
  verify_signature w identity signature signed_string = Ok true ->
  check_signature w req signature_details signed_string
  = ([JsonLoads (body req); Canonicalise decoded; PrintDocument document;
      ByActorUri actor; VerifySignature identity signature signed_string],
     Ok JsonResponse_status_OK).
Proof.
  intros Hs Hj Hc Ha Hi Hv. unfold check_signature.
  rewrite Hj, call_bind, Hc, call_bind. unfold emit. rewrite bind_ok.
  rewrite Ha, lift_bind, Hi, call_bind, (getitem_Some _ _ _ Hs), lift_bind.
  by rewrite Hv, call_bind.
Qed.

(** C9: take a request without a [Digest] header whose signature header
    splits, declares rsa-sha256 and covers headers that give the signed
    string [signed_string].  Replace its body by any other body: the signed
    string is the same, and when the new body decodes and canonicalises to a
    document whose actor resolves to an identity whose key accepts the
    signature over that signed string, the answer is the 200 response.  The
    body is read only to find the actor. *)
Theorem unsigned_body_change_still_trusted
    (w : world) (req : HttpRequest) (header signed_string signature : string)
    (signature_details : gmap string string) (modified : bytes)
    (decoded document actor : json) (identity : Identity w) :
  META req !! "HTTP_SIGNATURE" = Some header ->
  parse_signature header = Ok signature_details ->
  signature_details !! "algorithm" = Some "rsa-sha256" ->
  signature_details !! "signature" = Some signature ->
  META req !! "HTTP_DIGEST" = None ->
  signed_string_of req signature_details = Ok signed_string ->
  json_loads w modified = Ok decoded ->
  canonicalise w decoded = Ok document ->
  json_getitem document "actor" = Ok actor ->
  by_actor_uri w actor = Ok (Some identity) ->
  verify_signature w identity signature signed_string = Ok true ->
  signed_string_of (with_body modified req) signature_details = Ok signed_string
  /\ post w (with_body modified req)
     = ([JsonLoads modified; Canonicalise decoded; PrintDocument document;
         ByActorUri actor; VerifySignature identity signature signed_string],
        Ok JsonResponse_status_OK).
Proof.
  intros Hsig Hparse Halg Hs Hd Hstr Hj Hc Ha Hi Hv.
  assert (signed_string_of (with_body modified req) signature_details = Ok signed_string)
    as Hstr' by (by rewrite signed_string_of_with_body).
  split; [exact Hstr'|].
  rewrite (post_after_algorithm w (with_body modified req) header signature_details)
    by done.
  rewrite (check_digest_absent w (with_body modified req)) by done.
  rewrite ret_bind, Hstr', lift_bind.
  by apply (check_signature_trusted w (with_body modified req)).
Qed.

Lemma unsigned_body_change_still_trusted_witness :
  signed_string_of (with_body (text Demo.tampered_note) Demo.signed_request)
    (Demo.details_of_signed_request) = Ok Demo.host_date_payload
  /\ post Demo.world (with_body (text Demo.tampered_note) Demo.signed_request)
     = ([JsonLoads (text Demo.tampered_note);
         Canonicalise (JDict [("actor", JStr Demo.alice); ("type", JStr "Delete")]);
         PrintDocument (JDict [("actor", JStr Demo.alice); ("type", JStr "Delete")]);
         ByActorUri (JStr Demo.alice);
         VerifySignature (Demo.alice : Identity Demo.world) Demo.signature_b64
           Demo.host_date_payload],
        Ok JsonResponse_status_OK).
Proof.
  apply (unsigned_body_change_still_trusted Demo.world Demo.signed_request
           (Demo.signature_header "rsa-sha256" "(request-target) host date")).
  - vm_compute. reflexivity.
  - reflexivity.
  - vm_compute. reflexivity.
  - vm_compute. reflexivity.
  - vm_compute. reflexivity.
  - vm_compute. reflexivity.
  - vm_compute. reflexivity.
  - reflexivity.
  - reflexivity.
  - reflexivity.
  - vm_compute. reflexivity.
Defined.

(** ** The signed payload (lines 162-172) *)

Local Open Scope nat_scope.

Lemma odict_set_keys_old (k v : string) (d : odict) :
  k ∈ keys d -> keys (odict_set k v d) = keys d.
Proof.
  unfold keys. induction d as [|[k' v'] d IH]; intros Hin; cbn.
  - by apply elem_of_nil in Hin.
  - destruct (String.eqb_spec k k') as [->|Hne]; [reflexivity|].
    cbn. f_equal. apply IH. cbn in Hin. apply elem_of_cons in Hin as [?|?]; done.
Qed.

Lemma odict_set_new (k v : string) (d : odict) :
  k ∉ keys d -> odict_set k v d = d ++ [(k, v)].
Proof.
  unfold keys. induction d as [|[k' v'] d IH]; intros Hin; cbn; [reflexivity|].
  cbn in Hin. apply not_elem_of_cons in Hin as [Hne Hin].
  destruct (String.eqb_spec k k') as [->|_]; [done|]. by rewrite IH.
Qed.

Lemma odict_set_length (k v : string) (d : odict) :
  length (odict_set k v d) = if bool_decide (k ∈ keys d) then length d else S (length d).
Proof.
  case_bool_decide as Hin.
  - rewrite <- (length_map fst), <- (length_map fst d). fold (keys (odict_set k v d)).
    by rewrite odict_set_keys_old.
  - rewrite odict_set_new, length_app by done. cbn. lia.
Qed.

Lemma odict_set_values (req : HttpRequest) (k v : string) (d : odict) :
  header_value req k = Ok v -> values_of req d -> values_of req (odict_set k v d).
Proof.
  unfold values_of. intros Hk. induction d as [|[k' v'] d IH]; intros Hd; cbn.
  - by constructor.
  - apply Forall_cons in Hd as [Hd1 Hd2].
    destruct (String.eqb_spec k k') as [->|_]; constructor; auto.
Qed.

Lemma first_occurrences_ext (s1 s2 names : list string) :
  (forall x, x ∈ s1 <-> x ∈ s2) ->
  first_occurrences s1 names = first_occurrences s2 names.
Proof.
  revert s1 s2. induction names as [|n names IH]; intros s1 s2 H; [reflexivity|].
  cbn. rewrite (bool_decide_ext (n ∈ s1) (n ∈ s2)) by apply H.
  case_bool_decide; [by apply IH|]. f_equal. apply IH.
  intros x. rewrite !elem_of_cons. by rewrite H.
Qed.

Lemma first_occurrences_length (seen names : list string) :
  length (first_occurrences seen names) <= length names.
Proof.
  revert seen. induction names as [|n names IH]; intros seen; cbn; [lia|].
  case_bool_decide; cbn; [specialize (IH seen)|specialize (IH (n :: seen))]; lia.
Qed.

Lemma first_occurrences_fresh (seen names : list string) (x : string) :
  x ∈ first_occurrences seen names -> (x ∉ seen) /\ x ∈ names.
Proof.
  revert seen. induction names as [|n names IH]; intros seen; cbn.
  - intros H. by apply elem_of_nil in H.
  - case_bool_decide as Hn.
    + intros H. apply IH in H as [? ?]. split; [done|]. by apply elem_of_cons; right.
    + intros H. apply elem_of_cons in H as [->|H].
      * split; [done|]. by apply elem_of_cons; left.
      * apply IH in H as [H1 H2]. apply not_elem_of_cons in H1 as [_ H1].
        split; [done|]. by apply elem_of_cons; right.
Qed.

Lemma first_occurrences_NoDup (seen names : list string) :
  NoDup (first_occurrences seen names).
Proof.
  revert seen. induction names as [|n names IH]; intros seen; cbn; [constructor|].
  case_bool_decide; [apply IH|]. constructor; [|apply IH].
  intros H'. apply first_occurrences_fresh in H' as [H' _]. apply H'. by left.
Qed.

(** A repeated name, or a name already seen, leaves fewer first occurrences
    than names. *)
Lemma first_occurrences_shorter (seen names : list string) :
  (exists n, n ∈ names /\ n ∈ seen) \/ ~ NoDup names ->
  length (first_occurrences seen names) < length names.
Proof.
  revert seen. induction names as [|n names IH]; intros seen H; cbn.
  - destruct H as [(x & Hx & _)|H]; [by apply elem_of_nil in Hx|].
    destruct H. constructor.
  - case_bool_decide as Hn; cbn.
    + pose proof (first_occurrences_length seen names). lia.
    + apply Nat.succ_lt_mono. rewrite <- !Nat.succ_lt_mono. apply IH.
      destruct H as [(x & Hx & Hs)|H].
      * apply elem_of_cons in Hx as [->|Hx]; [done|].
        left. exists x. split; [done|]. by right.
      * destruct (decide (n ∈ names)) as [Hin|Hnin].
        -- left. exists n. split; [done|]. by left.
        -- right. intros Hnd. apply H. by constructor.
Qed.

(** The loop of lines 163-171, when it ends without an exception. *)
Lemma collect_headers_ok (req : HttpRequest) (names : list string) (acc headers : odict) :
  collect_headers req names acc = Ok headers ->
  values_of req acc ->
  keys headers = keys acc ++ first_occurrences (keys acc) names
  /\ values_of req headers.
Proof.
  revert acc. induction names as [|n names IH]; intros acc H Hacc.
  - cbn in H. injection H as <-. cbn. by rewrite app_nil_r.
  - cbn [collect_headers] in H. destruct (header_value req n) as [v|e] eqn:Hv; [|done].
    apply IH in H as [Hk Hvals]; [|by apply odict_set_values].
    split; [|done]. rewrite Hk. cbn [first_occurrences].
    case_bool_decide as Hin.
    + by rewrite odict_set_keys_old.
    + rewrite odict_set_new by done. unfold keys. rewrite !map_app. cbn.
      rewrite <- app_assoc. cbn. do 2 f_equal.
      apply first_occurrences_ext. intros x.
      rewrite elem_of_app, !elem_of_cons, elem_of_nil. tauto.
Qed.

(** The loop stops at the first name whose value cannot be read. *)
Lemma collect_headers_raise (req : HttpRequest) (names : list string) (acc : odict)
    (n : string) (e : exn) :
  n ∈ names -> header_value req n = Raise e ->
  exists e', collect_headers req names acc = Raise e'.
Proof.
  revert acc. induction names as [|m names IH]; intros acc Hin Hn.
  - by apply elem_of_nil in Hin.
  - cbn [collect_headers]. destruct (header_value req m) as [v|e'] eqn:Hm; [|by eexists].
    apply elem_of_cons in Hin as [->|Hin]; [congruence|]. by apply IH.
Qed.

Lemma collect_headers_total (req : HttpRequest) (names : list string) (acc : odict) :
  (forall n, n ∈ names -> exists v, header_value req n = Ok v) ->
  exists headers, collect_headers req names acc = Ok headers.
Proof.
  revert acc. induction names as [|n names IH]; intros acc H; [by eexists|].
  cbn [collect_headers]. destruct (H n) as [v ->]; [by left|].
  apply IH. intros m Hm. apply H. by right.
Qed.

Lemma header_value_target (req : HttpRequest) :
  header_value req "(request-target)" = Ok ("post " +:+ path req).
Proof. reflexivity. Qed.

Lemma header_value_content_type (req : HttpRequest) :
  header_value req "content-type" = getitem (META req) "CONTENT_TYPE".
Proof. reflexivity. Qed.

(** Any other name is read from the entry [HTTP_] plus its capitals. *)
Lemma header_value_other (req : HttpRequest) (header_name u : string) :
  header_name ≠ "(request-target)" -> header_name ≠ "content-type" ->
  Str.upper header_name = Some u ->
  header_value req header_name = getitem (META req) ("HTTP_" +:+ u).
Proof.
  intros H1 H2 Hu. unfold header_value.
  by rewrite (eqb_string_neq _ _ H1), (eqb_string_neq _ _ H2), Hu.
Qed.

(** C4: for the path [/actor/123/inbox/] of a POST, the host
    [example.com], the date [Wed, 01 Jan 2020 00:00:00 GMT] and the covered
    headers [(request-target) host date], the signed string is the three
    lines [(request-target): post /actor/123/inbox/], [host: example.com]
    and [date: Wed, 01 Jan 2020 00:00:00 GMT], with one newline between two
    lines and none at the end. *)
Theorem signed_string_host_date
    (req : HttpRequest) (signature_details : gmap string string) :
  path req = "/actor/123/inbox/" ->
  META req !! "HTTP_HOST" = Some "example.com" ->
  META req !! "HTTP_DATE" = Some "Wed, 01 Jan 2020 00:00:00 GMT" ->
  signature_details !! "headers" = Some "(request-target) host date" ->
  signed_string_of req signature_details
  = Ok ("(request-target): post /actor/123/inbox/" +:+ newline
        +:+ "host: example.com" +:+ newline
        +:+ "date: Wed, 01 Jan 2020 00:00:00 GMT").
Proof.
  intros Hpath Hhost Hdate Hcov. unfold signed_string_of.
  rewrite (getitem_Some _ _ _ Hcov).
  change (Str.split_ws "(request-target) host date")
    with ["(request-target)"; "host"; "date"].
  cbn [collect_headers]. rewrite header_value_target, Hpath.
  rewrite (header_value_other req "host" "HOST") by done.
  rewrite (getitem_Some (META req) ("HTTP_" +:+ "HOST") _ Hhost).
  rewrite (header_value_other req "date" "DATE") by done.
  rewrite (getitem_Some (META req) ("HTTP_" +:+ "DATE") _ Hdate).
  reflexivity.
Qed.

Lemma signed_string_host_date_witness :
  signed_string_of Demo.signed_request Demo.details_of_signed_request
  = Ok ("(request-target): post /actor/123/inbox/" +:+ newline
        +:+ "host: example.com" +:+ newline
        +:+ "date: Wed, 01 Jan 2020 00:00:00 GMT").
Proof.
  apply (signed_string_host_date Demo.signed_request Demo.details_of_signed_request).
  - reflexivity.
  - vm_compute. reflexivity.
  - vm_compute. reflexivity.
  - vm_compute. reflexivity.
Defined.

(** C10: when every covered name has a value, the signed string is built
    from a dict that holds each name once, at the place of its first
    occurrence and with the value the request gives it.  A name that stands
    more than once in the covered-headers list therefore gives one line,
    and the signed string has fewer lines than the list has names. *)
Theorem repeated_covered_header_one_line
    (req : HttpRequest) (signature_details : gmap string string) (covered : string) :
  signature_details !! "headers" = Some covered ->
  (forall n, n ∈ Str.split_ws covered -> exists v, header_value req n = Ok v) ->
  exists headers : odict,
    signed_string_of req signature_details = Ok (Str.join newline (map line headers))
    /\ keys headers = first_occurrences [] (Str.split_ws covered)
    /\ NoDup (keys headers)
    /\ values_of req headers
    /\ (~ NoDup (Str.split_ws covered) ->
        length (map line headers) < length (Str.split_ws covered)).
Proof.
  intros Hcov Hall.
  destruct (collect_headers_total req (Str.split_ws covered) [] Hall) as [headers Hh].
  exists headers.
  destruct (collect_headers_ok req _ _ _ Hh) as [Hk Hv]; [constructor|].
  cbn in Hk. repeat split.
  - unfold signed_string_of. by rewrite (getitem_Some _ _ _ Hcov), Hh.
  - done.
  - rewrite Hk. apply first_occurrences_NoDup.
  - done.
  - intros Hdup. rewrite length_map, <- (length_map fst). fold (keys headers).
    rewrite Hk. apply first_occurrences_shorter. by right.
Qed.

Lemma repeated_covered_header_one_line_witness :
  exists headers : odict,
    signed_string_of Demo.signed_request (<["headers" := "host date host"]> ∅)
    = Ok (Str.join newline (map line headers))
    /\ keys headers = first_occurrences [] (Str.split_ws "host date host")
    /\ NoDup (keys headers)
    /\ values_of Demo.signed_request headers
    /\ (~ NoDup (Str.split_ws "host date host") ->
        length (map line headers) < length (Str.split_ws "host date host")).
Proof.
  apply (repeated_covered_header_one_line Demo.signed_request
           (<["headers" := "host date host"]> ∅) "host date host").
  - vm_compute. reflexivity.
  - intros n Hn. change (Str.split_ws "host date host") with ["host"; "date"; "host"] in Hn.
    rewrite !elem_of_cons, elem_of_nil in Hn.
    destruct Hn as [->|[->|[->|[]]]]; eexists; vm_compute; reflexivity.
Defined.

Example repeated_host_two_lines :
  signed_string_of Demo.signed_request (<["headers" := "host date host"]> ∅)
  = Ok ("host: example.com" +:+ newline +:+ "date: Wed, 01 Jan 2020 00:00:00 GMT").
Proof. vm_compute. reflexivity. Qed.

(** ** The request target (lines 165-166) *)




(** ** Looking up a covered header (lines 167-170) *)

Lemma outcome_bind {w : world} {A B : Type} (m : M w A) (f : A -> M w B) :
  outcome (m ≫= f)
  = match outcome m with Ok a => outcome (f a) | Raise e => Raise e end.
Proof.
  destruct m as [t [a|e]]; [|reflexivity]. rewrite bind_ok. reflexivity.
Qed.

Lemma outcome_call {w : world} {A : Type} (ev : event w) (r : result A) :
  outcome (call ev r) = r.
Proof. unfold call. rewrite outcome_bind. reflexivity. Qed.

(** The handler from the signed payload on, for a request that passed the
    algorithm check and the digest check. *)
Lemma post_outcome_after_digest (w : world) (req : HttpRequest) (header : string)
    (signature_details : gmap string string) :
  META req !! "HTTP_SIGNATURE" = Some header ->
  parse_signature header = Ok signature_details ->
  signature_details !! "algorithm" = Some "rsa-sha256" ->
  outcome (check_digest w req) = Ok None ->
  outcome (post w req)
  = match signed_string_of req signature_details with
    | Ok signed_string => outcome (check_signature w req signature_details signed_string)
    | Raise e => Raise e
    end.
Proof.
  intros Hsig Hparse Halg Hd.
  rewrite (post_after_algorithm w req header signature_details Hsig Hparse Halg).
  rewrite outcome_bind, Hd, lift_bind. by destruct (signed_string_of _ _).
Qed.

Lemma post_outcome_reaches_body (w : world) (req : HttpRequest)
    (signature_details : gmap string string) (signed_string : string) :
  reaches_body w req signature_details signed_string ->
  outcome (post w req) = outcome (check_signature w req signature_details signed_string).
Proof.
  intros (header & Hsig & Hparse & Halg & Hd & Hs).
  by rewrite (post_outcome_after_digest w req header signature_details), Hs.
Qed.

Lemma upper_char_keeps_hyphen_free (a : ascii) (u : string) :
  Ascii.eqb a "-" = false -> Str.upper_char a = Some u -> hyphens_to_underscores u = u.
Proof.
  destruct a as [[] [] [] [] [] [] [] []]; intros H1 H2;
    try discriminate H1; try discriminate H2;
    injection H2 as <-; reflexivity.
Qed.

Lemma hyphens_to_underscores_app (a b : string) :
  hyphens_to_underscores (a +:+ b) = hyphens_to_underscores a +:+ hyphens_to_underscores b.
Proof.
  induction a as [|x a IH]; [reflexivity|].
  rewrite append_cons. cbn [hyphens_to_underscores]. by rewrite IH, append_cons.
Qed.

Lemma upper_keeps_hyphen_free (s u : string) :
  occurs "-" s = false -> Str.upper s = Some u -> hyphens_to_underscores u = u.
Proof.
  revert u. induction s as [|a s IH]; intros u Hs Hu.
  - by injection Hu as <-.
  - unfold occurs in Hs, IH. cbn [any_char] in Hs. apply orb_false_elim in Hs as [Ha Hs].
    cbn [Str.upper] in Hu.
    destruct (Str.upper_char a) as [ua|] eqn:Ea; [|done].
    destruct (Str.upper s) as [us|] eqn:Es; [|done].
    injection Hu as <-. rewrite hyphens_to_underscores_app.
    rewrite (IH us) by done.
    rewrite Ascii.eqb_sym in Ha.
    by rewrite (upper_char_keeps_hyphen_free a ua).
Qed.

(** C5, as the code has it: a covered header name other than the
    request-target pseudo-header and [content-type] is read from the entry
    of [META] named [HTTP_] plus the name in capitals.  Names that differ in
    case only read the same entry, and a request header whose name has no
    hyphen is found under any casing of it.  When the entry is missing the
    look-up raises KeyError, and a request that got as far as the signed
    payload ends with an exception instead of a response. *)
Theorem covered_header_lookup
    (w : world) (req : HttpRequest) (header_name u : string) :
  header_name ≠ "(request-target)" -> header_name ≠ "content-type" ->
  Str.upper header_name = Some u ->
  header_value req header_name = getitem (META req) ("HTTP_" +:+ u)
  /\ (forall other : string,
        other ≠ "(request-target)" -> other ≠ "content-type" ->
        Str.upper other = Some u ->
        header_value req other = header_value req header_name)
  /\ (forall sent key value : string,
        occurs "-" sent = false -> Str.upper sent = Some u ->
        wsgi_key sent = Some key -> META req !! key = Some value ->
        header_value req header_name = Ok value)
  /\ (META req !! ("HTTP_" +:+ u) = None ->
      header_value req header_name = Raise (KeyError ("HTTP_" +:+ u))
      /\ forall (header covered : string) (signature_details : gmap string string),
           META req !! "HTTP_SIGNATURE" = Some header ->
           parse_signature header = Ok signature_details ->
           signature_details !! "algorithm" = Some "rsa-sha256" ->
           outcome (check_digest w req) = Ok None ->
           signature_details !! "headers" = Some covered ->
           header_name ∈ Str.split_ws covered ->
           exists e, outcome (post w req) = Raise e).
Proof.
  intros H1 H2 Hu.
  pose proof (header_value_other req header_name u H1 H2 Hu) as Hv.
  repeat split.
  - exact Hv.
  - intros other Ho1 Ho2 Hou. by rewrite Hv, (header_value_other req other u).
  - intros sent key value Hs Hsu Hk Hm. rewrite Hv.
    unfold wsgi_key in Hk. rewrite Hsu in Hk. injection Hk as <-.
    rewrite (upper_keeps_hyphen_free sent u Hs Hsu) in Hm.
    by apply getitem_Some.
  - rewrite Hv. by apply getitem_None.
  - intros header covered d Hsig Hparse Halg Hd Hcov Hin.
    rewrite (post_outcome_after_digest w req header d Hsig Hparse Halg Hd).
    unfold signed_string_of. rewrite (getitem_Some _ _ _ Hcov).
    destruct (collect_headers_raise req (Str.split_ws covered) [] header_name
                (KeyError ("HTTP_" +:+ u)) Hin) as [e ->]; [|by eexists].
    rewrite Hv. by apply getitem_None.
Qed.

Lemma covered_header_lookup_witness :
  header_value (Demo.with_meta "HTTP_EXPIRES" "never" Demo.signed_request) "eXpires"
  = Ok "never"
  /\ exists e,
       outcome (post Demo.world
                  (Demo.request
                     (Demo.signature_header "rsa-sha256" "(request-target) host expires")
                     Demo.note))
       = Raise e.
Proof.
  split.
  - refine (proj1 (proj2 (proj2
      (covered_header_lookup Demo.world
         (Demo.with_meta "HTTP_EXPIRES" "never" Demo.signed_request)
         "eXpires" "EXPIRES" _ _ _))) "Expires" "HTTP_EXPIRES" "never" _ _ _ _).
    + discriminate.
    + discriminate.
    + reflexivity.
    + reflexivity.
    + reflexivity.
    + reflexivity.
    + vm_compute. reflexivity.
  - refine (proj2 (proj2 (proj2 (proj2
      (covered_header_lookup Demo.world
         (Demo.request
            (Demo.signature_header "rsa-sha256" "(request-target) host expires") Demo.note)
         "expires" "EXPIRES" _ _ _))) _)
      (Demo.signature_header "rsa-sha256" "(request-target) host expires")
      "(request-target) host expires" _ _ _ _ _ _ _).
    + discriminate.
    + discriminate.
    + reflexivity.
    + vm_compute. reflexivity.
    + vm_compute. reflexivity.
    + reflexivity.
    + vm_compute. reflexivity.
    + vm_compute. reflexivity.
    + vm_compute. reflexivity.
    + vm_compute. repeat constructor.
Defined.

(** A covered header that the request does not have ends the handler with
    an exception. *)
Lemma missing_covered_header_raises :
  post Demo.world
    (Demo.request (Demo.signature_header "rsa-sha256" "(request-target) host expires")
                  Demo.note)
  = ([], Raise (KeyError "HTTP_EXPIRES")).
Proof. vm_compute. reflexivity. Qed.

(** A header filed under a name with an underscore is not found by its
    hyphenated name. *)
Example hyphenated_header_not_found :
  wsgi_key "User-Agent" = Some "HTTP_USER_AGENT"
  /\ header_value (Demo.with_meta "HTTP_USER_AGENT" "agent/1.0" Demo.signed_request)
                  "user-agent"
     = Raise (KeyError "HTTP_USER-AGENT").
Proof. split; vm_compute; reflexivity. Qed.

(** ** Responses and uncaught exceptions *)

Lemma outcome_lift {w : world} {A : Type} (r : result A) :
  outcome (lift r : M w A) = r.
Proof. reflexivity. Qed.

Ltac outcomes :=
  repeat first
    [ rewrite outcome_bind
    | rewrite outcome_call
    | rewrite outcome_lift
    | progress cbn [outcome snd emit print ret raise mret M_ret] ].

Ltac split_result :=
  match goal with
  | H : context [match ?r with Ok _ => _ | Raise _ => _ end] |- _ =>
      let E := fresh "E" in destruct r eqn:E; try discriminate H
  | H : context [match ?o with Some _ => _ | None => _ end] |- _ =>
      let E := fresh "E" in destruct o eqn:E; try discriminate H
  | H : context [if ?b then _ else _] |- _ =>
      let E := fresh "E" in destruct b eqn:E; try discriminate H
  end.

Lemma check_digest_outcome (w : world) (req : HttpRequest) (r : HttpResponse) :
  outcome (check_digest w req) = Ok (Some r) -> r = HttpResponseBadRequest.
Proof.
  unfold check_digest. intros H.
  destruct (META req !! "HTTP_DIGEST"); [|done].
  revert H. outcomes. rewrite digest_header_text.
  destruct (negb _); outcomes; congruence.
Qed.

(** The last stage returns one of two responses, and the 200 response only
    with a signature that the key of the identity accepted. *)
Lemma check_signature_outcome (w : world) (req : HttpRequest)
    (signature_details : gmap string string) (signed_string : string) (r : HttpResponse) :
  outcome (check_signature w req signature_details signed_string) = Ok r ->
  (r = HttpResponseBadRequest \/ r = JsonResponse_status_OK)
  /\ exists signature, signature_details !! "signature" = Some signature.
Proof.
  unfold check_signature. outcomes. intros H.
  repeat (split_result; revert H; outcomes; intros H).
  - split; [left; congruence|]. unfold getitem in *. destruct (_ !! _); [by eexists|done].
  - split; [right; congruence|]. unfold getitem in *. destruct (_ !! _); [by eexists|done].
Qed.

Lemma post_details_outcome (w : world) (req : HttpRequest)
    (signature_details : gmap string string) (r : HttpResponse) :
  outcome (post_details w req signature_details) = Ok r ->
  r = HttpResponseBadRequest
  \/ (r = JsonResponse_status_OK
      /\ signature_details !! "algorithm" = Some "rsa-sha256"
      /\ (exists covered, signature_details !! "headers" = Some covered)
      /\ (exists signature, signature_details !! "signature" = Some signature)).
Proof.
  unfold post_details. outcomes. intros H.
  destruct (getitem signature_details "algorithm") as [algorithm|] eqn:Ealg; [|done].
  destruct (String.eqb_spec algorithm "rsa-sha256") as [->|Hne];
    cbn [negb] in H; revert H; outcomes; [|left; congruence].
  destruct (outcome (check_digest w req)) as [[early|]|] eqn:Ed; outcomes; [|..|done].
  - intros [= <-]. left. by apply (check_digest_outcome w req).
  - destruct (signed_string_of req signature_details) as [s|] eqn:Es; [|done].
    intros H. apply check_signature_outcome in H as [[->| ->] Hsig]; [by left|right].
    repeat split; [|  |done].
    + unfold getitem in Ealg. by destruct (_ !! "algorithm") as [?|]; simplify_eq.
    + unfold signed_string_of, getitem in Es.
      destruct (signature_details !! "headers"); [by eexists|done].
Qed.

Lemma post_outcome (w : world) (req : HttpRequest) (r : HttpResponse) :
  outcome (post w req) = Ok r -> r = HttpResponseBadRequest \/ r = JsonResponse_status_OK.
Proof.
  unfold post. destruct (META req !! "HTTP_SIGNATURE") as [header|].
  - outcomes. destruct (parse_signature header) as [d|]; [|done].
    intros H. apply post_details_outcome in H. tauto.
  - outcomes. left. congruence.
Qed.

(** C1, as the code has it: whatever the handler returns is one of two
    responses, so every answer that is not the 200 response is the 400
    response with the empty body, the same for every check that failed
    (only the printed line tells them apart).  A failure the handler does
    not test for is not answered: for a request that got as far as the
    body, a body that [json.loads] refuses, and an actor that
    [by_actor_uri] does not find or raises on, end the handler with the
    exception. *)
Theorem rejections_generic_failures_uncaught (w : world) (req : HttpRequest) :
  (forall r : HttpResponse,
     outcome (post w req) = Ok r ->
     r ≠ JsonResponse_status_OK ->
     r = HttpResponseBadRequest /\ status_code r = 400%Z /\ content r = "")
  /\ (forall (signature_details : gmap string string) (signed_string : string),
        reaches_body w req signature_details signed_string ->
        (forall e, json_loads w (body req) = Raise e -> outcome (post w req) = Raise e)
        /\ (forall decoded document actor,
              json_loads w (body req) = Ok decoded ->
              canonicalise w decoded = Ok document ->
              json_getitem document "actor" = Ok actor ->
              (by_actor_uri w actor = Ok None ->
               outcome (post w req) = Raise AttributeError)
              /\ (forall e, by_actor_uri w actor = Raise e ->
                  outcome (post w req) = Raise e))).
Proof.
  split.
  - intros r H Hne. apply post_outcome in H as [->| ->]; done.
  - intros d s Hreach. rewrite (post_outcome_reaches_body w req d s Hreach).
    unfold check_signature. split.
    + intros e He. outcomes. by rewrite He.
    + intros decoded document actor Hj Hc Ha. outcomes.
      rewrite Hj, Hc. outcomes. rewrite Ha. split.
      * intros Hn. by rewrite Hn.
      * intros e He. by rewrite He.
Qed.

Lemma demo_reaches_body (data : string) :
  reaches_body Demo.world (with_body (text data) Demo.signed_request)
    Demo.details_of_signed_request Demo.host_date_payload.
Proof.
  exists (Demo.signature_header "rsa-sha256" "(request-target) host date").
  repeat split; vm_compute; reflexivity.
Defined.

Lemma rejections_generic_failures_uncaught_witness :
  outcome (post Demo.world (with_body (text "not json") Demo.signed_request))
  = Raise JSONDecodeError
  /\ outcome (post Demo.world (with_body (text Demo.stranger_note) Demo.signed_request))
     = Raise AttributeError.
Proof.
  split.
  - refine (proj1 (proj2
      (rejections_generic_failures_uncaught Demo.world
         (with_body (text "not json") Demo.signed_request))
      _ _ (demo_reaches_body "not json")) JSONDecodeError _).
    vm_compute. reflexivity.
  - refine (proj1 (proj2 (proj2
      (rejections_generic_failures_uncaught Demo.world
         (with_body (text Demo.stranger_note) Demo.signed_request))
      _ _ (demo_reaches_body Demo.stranger_note))
      (JDict [("actor", JStr "https://remote.example/users/bob")])
      (JDict [("actor", JStr "https://remote.example/users/bob")])
      (JStr "https://remote.example/users/bob") _ _ _) _).
    + vm_compute. reflexivity.
    + reflexivity.
    + reflexivity.
    + reflexivity.
Defined.

(** A body that is no JSON text, and an actor that is not known, each end
    the handler with an exception and without a response. *)
Lemma unparseable_body_and_unknown_actor_raise :
  post Demo.world (with_body (text "not json") Demo.signed_request)
  = ([JsonLoads (text "not json")], Raise JSONDecodeError)
  /\ post Demo.world (with_body (text Demo.stranger_note) Demo.signed_request)
     = ([JsonLoads (text Demo.stranger_note);
         Canonicalise (JDict [("actor", JStr "https://remote.example/users/bob")]);
         PrintDocument (JDict [("actor", JStr "https://remote.example/users/bob")]);
         ByActorUri (JStr "https://remote.example/users/bob")],
        Raise AttributeError).
Proof. split; vm_compute; reflexivity. Qed.

(** ** The fields of the signature header that the handler reads *)

Lemma getitem_agree (d1 d2 : gmap string string) (k : string) :
  d1 !! k = d2 !! k -> getitem d1 k = getitem d2 k.
Proof. unfold getitem. by intros ->. Qed.

(** C2, as the code has it: splitting the header checks no field.  A
    header without [algorithm] ends the handler with KeyError right after
    the split; one without [headers] or without [signature] is never
    answered with the 200 response; an empty algorithm is answered like any
    other unknown algorithm.  [keyId] is never read: two sets of fields that
    agree on [algorithm], [headers] and [signature] are handled alike. *)
Theorem signature_fields_read_late
    (w : world) (req : HttpRequest) (header : string)
    (signature_details : gmap string string) :
  META req !! "HTTP_SIGNATURE" = Some header ->
  parse_signature header = Ok signature_details ->
  post w req = post_details w req signature_details
  /\ (signature_details !! "algorithm" = None ->
      post w req = ([], Raise (KeyError "algorithm")))
  /\ (signature_details !! "algorithm" = Some "" ->
      post w req = ([Print "Unknown algorithm"], Ok HttpResponseBadRequest))
  /\ (signature_details !! "headers" = None \/ signature_details !! "signature" = None ->
      forall r, outcome (post w req) = Ok r -> r = HttpResponseBadRequest)
  /\ (forall other : gmap string string,
        other !! "algorithm" = signature_details !! "algorithm" ->
        other !! "headers" = signature_details !! "headers" ->
        other !! "signature" = signature_details !! "signature" ->
        post_details w req other = post_details w req signature_details).
Proof.
  intros Hsig Hparse.
  assert (post w req = post_details w req signature_details) as E.
  { unfold post. by rewrite Hsig, Hparse, lift_bind. }
  rewrite E. repeat split.
  - intros Ha. unfold post_details. by rewrite (getitem_None _ _ Ha), lift_bind.
  - intros Ha. unfold post_details. by rewrite (getitem_Some _ _ _ Ha), lift_bind.
  - intros Hmiss r Hr. apply post_details_outcome in Hr as [->|(_ & _ & [c Hc] & [s Hs])];
      [done|]. destruct Hmiss; congruence.
  - intros other Ha Hh Hs. unfold post_details, signed_string_of, check_signature.
    by rewrite (getitem_agree _ _ _ Ha), (getitem_agree _ _ _ Hh), (getitem_agree _ _ _ Hs).
Qed.

Lemma signature_fields_read_late_witness :
  post Demo.world (Demo.request (Demo.field "keyId" "k") Demo.note)
  = ([], Raise (KeyError "algorithm"))
  /\ post_details Demo.world Demo.signed_request
       (delete "keyId" Demo.details_of_signed_request)
     = post_details Demo.world Demo.signed_request Demo.details_of_signed_request.
Proof.
  split.
  - refine (proj1 (proj2
      (signature_fields_read_late Demo.world
         (Demo.request (Demo.field "keyId" "k") Demo.note) (Demo.field "keyId" "k")
         _ _ _)) _).
    + vm_compute. reflexivity.
    + reflexivity.
    + vm_compute. reflexivity.
  - refine (proj2 (proj2 (proj2 (proj2
      (signature_fields_read_late Demo.world Demo.signed_request
         (Demo.signature_header "rsa-sha256" "(request-target) host date")
         Demo.details_of_signed_request _ _))))
      (delete "keyId" Demo.details_of_signed_request) _ _ _).
    + vm_compute. reflexivity.
    + reflexivity.
    + vm_compute. reflexivity.
    + vm_compute. reflexivity.
    + vm_compute. reflexivity.
Defined.

(** A signature header that names no key is accepted. *)
Lemma header_without_keyId_accepted :
  post Demo.world (Demo.request Demo.signature_header_without_keyId Demo.note)
  = ([JsonLoads (text Demo.note);
      Canonicalise (JDict [("actor", JStr Demo.alice); ("type", JStr "Follow")]);
      PrintDocument (JDict [("actor", JStr Demo.alice); ("type", JStr "Follow")]);
      ByActorUri (JStr Demo.alice);
      VerifySignature (Demo.alice : Identity Demo.world) Demo.signature_b64
        Demo.host_date_payload],
     Ok JsonResponse_status_OK).
Proof. vm_compute. reflexivity. Qed.

(** ** Splitting the signature header (lines 143-147) *)

Lemma any_char_app (p : ascii -> bool) (a b : string) :
  any_char p (a +:+ b) = any_char p a || any_char p b.
Proof.
  induction a as [|x a IH]; [reflexivity|].
  rewrite append_cons. cbn [any_char]. by rewrite IH, orb_assoc.
Qed.

(** A text without separator is one piece. *)
Lemma split_by_whole (p : ascii -> bool) (x : string) :
  any_char p x = false -> Str.split_by p x = [x].
Proof.
  induction x as [|a x IH]; [reflexivity|].
  cbn [any_char Str.split_by]. intros H. apply orb_false_elim in H as [-> H].
  by rewrite IH.
Qed.

(** The first separator ends the first piece. *)
Lemma split_by_first (p : ascii -> bool) (x rest : string) (c : ascii) :
  any_char p x = false -> p c = true ->
  Str.split_by p (x +:+ String c rest) = x :: Str.split_by p rest.
Proof.
  intros Hx Hc. induction x as [|a x IH].
  - rewrite append_empty_l. cbn [Str.split_by]. by rewrite Hc.
  - cbn [any_char] in Hx. apply orb_false_elim in Hx as [Ha Hx].
    rewrite append_cons. cbn [Str.split_by]. by rewrite Ha, IH.
Qed.

(** Joining pieces with a separator they do not hold, and splitting again,
    gives the pieces back. *)
Lemma split_by_join (p : ascii -> bool) (c : ascii) (items : list string) :
  p c = true -> items ≠ [] -> Forall (fun x => any_char p x = false) items ->
  Str.split_by p (Str.join (String c EmptyString) items) = items.
Proof.
  intros Hc Hne Hall. induction Hall as [|x items Hx Hall IH]; [done|].
  destruct items as [|y items].
  - by apply split_by_whole.
  - change (Str.join (String c "") (x :: y :: items))
      with (x +:+ String c "" +:+ Str.join (String c "") (y :: items)).
    rewrite append_cons, append_empty_l, split_by_first by done.
    by rewrite IH.
Qed.

Lemma split_once_first (c : ascii) (k rest : string) :
  occurs c k = false -> Str.split_once c (k +:+ String c rest) = Some (k, rest).
Proof.
  unfold occurs. induction k as [|a k IH]; intros H.
  - rewrite append_empty_l. cbn [Str.split_once]. by rewrite Ascii.eqb_refl.
  - cbn [any_char] in H. apply orb_false_elim in H as [Ha H].
    rewrite append_cons. cbn [Str.split_once]. by rewrite Ha, IH.
Qed.

Lemma rstrip_closing (c : ascii) (v : string) :
  occurs c v = false -> Str.rstrip c (v +:+ String c EmptyString) = v.
Proof.
  unfold occurs. induction v as [|a v IH]; intros H.
  - rewrite append_empty_l. cbn [Str.rstrip]. by rewrite Ascii.eqb_refl.
  - cbn [any_char] in H. apply orb_false_elim in H as [Ha H].
    rewrite append_cons. cbn [Str.rstrip]. rewrite IH by done.
    destruct v; [by rewrite Ha|done].
Qed.

(** Stripping the quotes of a quoted value that holds none gives the value. *)
Lemma strip_quoted (v : string) :
  occurs dquote v = false -> Str.strip dquote (quoted v) = v.
Proof.
  intros H. unfold Str.strip, quoted. cbn [Str.lstrip]. rewrite Ascii.eqb_refl.
  destruct v as [|a v].
  - rewrite append_empty_l. cbn [Str.lstrip]. by rewrite Ascii.eqb_refl.
  - pose proof H as H'. unfold occurs in H'. cbn [any_char] in H'.
    apply orb_false_elim in H' as [Ha _].
    rewrite append_cons. cbn [Str.lstrip]. rewrite Ha.
    rewrite <- append_cons. by apply rstrip_closing.
Qed.

Lemma plain_field_parts (f : string * string) :
  plain_field f = true ->
  occurs "," (fst f) = false /\ occurs "=" (fst f) = false
  /\ occurs "," (snd f) = false /\ occurs dquote (snd f) = false.
Proof.
  unfold plain_field. rewrite !andb_true_iff, !negb_true_iff. tauto.
Qed.

Lemma render_field_no_comma (f : string * string) :
  plain_field f = true -> any_char (Ascii.eqb ",") (render_field f) = false.
Proof.
  intros (H1 & _ & H3 & _)%plain_field_parts. unfold render_field, quoted.
  rewrite any_char_app, append_cons, append_empty_l. cbn [any_char].
  rewrite any_char_app. cbn [any_char]. unfold occurs in H1, H3. by rewrite H1, H3.
Qed.

Lemma split_signature_rendered (fields : list (string * string)) (d : gmap string string) :
  forallb plain_field fields = true ->
  split_signature (map render_field fields) d
  = Ok (fold_left (fun d f => <[fst f := snd f]> d) fields d).
Proof.
  revert d. induction fields as [|f fields IH]; intros d H; [reflexivity|].
  cbn [forallb] in H. apply andb_true_iff in H as [Hf H].
  pose proof (plain_field_parts f Hf) as (_ & H2 & _ & H4).
  cbn [map split_signature fold_left]. unfold render_field at 1.
  rewrite append_cons, append_empty_l, split_once_first, strip_quoted by done.
  by apply IH.
Qed.

(** The loop of lines 144-147 on a header written from plain fields. *)
Lemma parse_rendered (fields : list (string * string)) :
  fields ≠ [] -> forallb plain_field fields = true ->
  parse_signature (render_signature fields) = Ok (details_of fields).
Proof.
  intros Hne Hplain. unfold parse_signature, render_signature, Str.split.
  rewrite split_by_join.
  - by apply split_signature_rendered.
  - reflexivity.
  - by destruct fields.
  - apply Forall_map, Forall_forall. intros f Hf. apply render_field_no_comma.
    rewrite forallb_forall in Hplain. apply Hplain. by apply list_elem_of_In.
Qed.

Lemma fold_insert_other (fields : list (string * string)) (d : gmap string string)
    (k : string) :
  k ∉ map fst fields ->
  fold_left (fun d f => <[fst f := snd f]> d) fields d !! k = d !! k.
Proof.
  revert d. induction fields as [|[k' v'] fields IH]; intros d H; [reflexivity|].
  cbn in H. apply not_elem_of_cons in H as [Hne H]. cbn [fold_left fst snd].
  rewrite IH by done. by rewrite lookup_insert_ne.
Qed.




(** ** The signature text *)

Lemma eqb_ascii_of_byte (c : ascii) (b : byte) :
  Z_of_byte b ≠ Z_of_byte (byte_of_ascii c) -> Ascii.eqb c (ascii_of_byte b) = false.
Proof.
  intros H. destruct (Ascii.eqb_spec c (ascii_of_byte b)) as [->|]; [|done].
  by rewrite byte_of_ascii_of_byte in H.
Qed.

Lemma occurs_bytes (c : ascii) (l : bytes) :
  Forall (fun b => Z_of_byte b ≠ Z_of_byte (byte_of_ascii c)) l ->
  occurs c (String.string_of_list_byte l) = false.
Proof.
  unfold occurs, String.string_of_list_byte.
  induction 1 as [|b l Hb Hl IH]; [reflexivity|].
  cbn [List.map String.string_of_list_ascii any_char].
  by rewrite eqb_ascii_of_byte, IH.
Qed.

Lemma b64_char_plain (i : Z) :
  (0 <= i < 64)%Z ->
  Z_of_byte (Base64.char i) ≠ 44%Z /\ Z_of_byte (Base64.char i) ≠ 34%Z.
Proof.
  intros Hi. rewrite Base64Facts.char_code by done.
  unfold Base64.code. repeat case_match; lia.
Qed.

Lemma b64encode_plain (l : bytes) :
  Forall (fun b => Z_of_byte b ≠ 44%Z /\ Z_of_byte b ≠ 34%Z) (Base64.b64encode l).
Proof.
  induction l as [|a|a b|a b c l IH] using list_ind3; cbn [Base64.b64encode];
    repeat first
      [ exact IH
      | apply Forall_nil_2
      | apply Forall_cons_2; [first [ apply b64_char_plain; Base64Facts.six_bits
                                    | by split ]|] ].
Qed.

(** Base64 text holds no comma and no double quote. *)
Lemma b64text_plain (data : bytes) :
  occurs "," (b64text data) = false /\ occurs dquote (b64text data) = false.
Proof.
  unfold b64text. split; apply occurs_bytes;
    (eapply Forall_impl; [apply b64encode_plain|]); by intros b [? ?].
Qed.





Example signed_by_alice_text : b64text (text "signed by alice") = Demo.signature_b64.
Proof. vm_compute. reflexivity. Qed.

(** * Further properties of the views *)

(** ** Inbox.post: every run, stage by stage *)

Ltac run :=
  repeat first
    [ rewrite call_bind
    | rewrite lift_bind
    | progress unfold print, emit
    | rewrite bind_ok
    | progress cbn [events outcome fst snd app ret raise mret M_ret negb] ].

(** The last stage, lines 173-181, as the list of its ways to end. *)
Lemma check_signature_run (w : world) (req : HttpRequest)
    (signature_details : gmap string string) (signed_string : string) :
  check_signature w req signature_details signed_string
  = match json_loads w (body req) with
    | Raise e => ([JsonLoads (body req)], Raise e)
    | Ok decoded =>
    match canonicalise w decoded with
    | Raise e => ([JsonLoads (body req); Canonicalise decoded], Raise e)
    | Ok document =>
    match json_getitem document "actor" with
    | Raise e =>
        ([JsonLoads (body req); Canonicalise decoded; PrintDocument document], Raise e)
    | Ok actor =>
    let seen := [JsonLoads (body req); Canonicalise decoded; PrintDocument document;
                 ByActorUri actor] in
    match by_actor_uri w actor with
    | Raise e => (seen, Raise e)
    | Ok None => (seen, Raise AttributeError)
    | Ok (Some who) =>
    match getitem signature_details "signature" with
    | Raise e => (seen, Raise e)
    | Ok signature =>
    match verify_signature w who signature signed_string with
    | Raise e => (seen ++ [VerifySignature who signature signed_string], Raise e)
    | Ok true =>
        (seen ++ [VerifySignature who signature signed_string], Ok JsonResponse_status_OK)
    | Ok false =>
        (seen ++ [VerifySignature who signature signed_string; Print "Bad signature"],
         Ok HttpResponseBadRequest)
    end end end end end end.
Proof.
  unfold check_signature. run.
  destruct (json_loads w (body req)) as [decoded|]; [|done]. run.
  destruct (canonicalise w decoded) as [document|]; [|done]. run.
  destruct (json_getitem document "actor") as [actor|]; [|done]. run.
  destruct (by_actor_uri w actor) as [[who|]|]; [|done..]. run.
  destruct (getitem signature_details "signature") as [signature|]; [|done]. run.
  destruct (verify_signature w who signature signed_string) as [[]|]; done.
Qed.

(** The digest check, lines 152-161, as the list of its ways to end. *)
Lemma check_digest_run (w : world) (req : HttpRequest) :
  check_digest w req
  = match META req !! "HTTP_DIGEST" with
    | None => ([], Ok None)
    | Some sent =>
        if String.eqb sent (digest_text (body req))
        then ([Hashed (body req)], Ok None)
        else ([Hashed (body req); Print "Bad digest"], Ok (Some HttpResponseBadRequest))
    end.
Proof.
  unfold check_digest. destruct (META req !! "HTTP_DIGEST") as [sent|]; [|done].
  rewrite call_bind, digest_header_text. by destruct (String.eqb _ _).
Qed.

(** The whole handler as the list of its ways to end. *)
Lemma post_run (w : world) (req : HttpRequest) :
  post w req
  = match META req !! "HTTP_SIGNATURE" with
    | None => ([Print "No signature"], Ok HttpResponseBadRequest)
    | Some header =>
    match parse_signature header with
    | Raise e => ([], Raise e)
    | Ok signature_details =>
    match getitem signature_details "algorithm" with
    | Raise e => ([], Raise e)
    | Ok algorithm =>
    if negb (String.eqb algorithm "rsa-sha256")
    then ([Print "Unknown algorithm"], Ok HttpResponseBadRequest)
    else
    match check_digest w req with
    | (hashed, Raise e) => (hashed, Raise e)
    | (hashed, Ok (Some response)) => (hashed, Ok response)
    | (hashed, Ok None) =>
    match signed_string_of req signature_details with
    | Raise e => (hashed, Raise e)
    | Ok signed_string =>
        (hashed ++ events (check_signature w req signature_details signed_string),
         outcome (check_signature w req signature_details signed_string))
    end end end end end.
Proof.
  unfold post. destruct (META req !! "HTTP_SIGNATURE") as [header|]; [|done]. run.
  destruct (parse_signature header) as [signature_details|]; [|done].
  unfold post_details. run.
  destruct (getitem signature_details "algorithm") as [algorithm|]; [|done].
  destruct (negb _); [done|].
  destruct (check_digest w req) as [hashed [[response|]|]]; run; [|  |done].
  - by rewrite app_nil_r.
  - destruct (signed_string_of req signature_details); run; [done|].
    by rewrite app_nil_r.
Qed.

Lemma getitem_Ok (d : gmap string string) (k v : string) :
  getitem d k = Ok v -> d !! k = Some v.
Proof. unfold getitem. destruct (d !! k); congruence. Qed.

Lemma check_digest_passed (w : world) (req : HttpRequest) (hashed : list (event w)) :
  check_digest w req = (hashed, Ok None) ->
  (META req !! "HTTP_DIGEST" = None /\ hashed = [])
  \/ (META req !! "HTTP_DIGEST" = Some (digest_text (body req))
      /\ hashed = [Hashed (body req)]).
Proof.
  rewrite check_digest_run. destruct (META req !! "HTTP_DIGEST") as [sent|].
  - destruct (String.eqb_spec sent (digest_text (body req))) as [->|]; [|done].
    intros [= <-]. by right.
  - intros [= <-]. by left.
Qed.

(** X1: the handler answers 200 only after every check has passed: the
    signature header is there, splits and declares rsa-sha256; a [Digest]
    header, if any, is the digest text of the body; every covered header
    was found; the body decodes and canonicalises to a document whose actor
    resolves to an identity; and the key of that identity accepted the
    signature of the header over the signed string built from the
    request. *)
Theorem trusted_only_when_verified
    (w : world) (req : HttpRequest) (t : list (event w)) :
  post w req = (t, Ok JsonResponse_status_OK) ->
  exists (header signed_string signature : string) (signature_details : gmap string string)
         (decoded document actor : json) (who : Identity w),
    META req !! "HTTP_SIGNATURE" = Some header
    /\ parse_signature header = Ok signature_details
    /\ signature_details !! "algorithm" = Some "rsa-sha256"
    /\ (META req !! "HTTP_DIGEST" = None
        \/ META req !! "HTTP_DIGEST" = Some (digest_text (body req)))
    /\ signed_string_of req signature_details = Ok signed_string
    /\ json_loads w (body req) = Ok decoded
    /\ canonicalise w decoded = Ok document
    /\ json_getitem document "actor" = Ok actor
    /\ by_actor_uri w actor = Ok (Some who)
    /\ signature_details !! "signature" = Some signature
    /\ verify_signature w who signature signed_string = Ok true
    /\ last t = Some (VerifySignature who signature signed_string).
Proof.
  rewrite post_run.
  destruct (META req !! "HTTP_SIGNATURE") as [header|] eqn:Hsig; [|done].
  destruct (parse_signature header) as [d|] eqn:Hparse; [|done].
  destruct (getitem d "algorithm") as [a|] eqn:Halg; [|done].
  destruct (String.eqb_spec a "rsa-sha256") as [->|]; [|done]. cbn [negb].
  destruct (check_digest w req) as [hashed [[response|]|]] eqn:Hd; [| |done].
  { intros [= <- ->]. rewrite check_digest_run in Hd.
    destruct (META req !! "HTTP_DIGEST"); [|done]. by destruct (String.eqb _ _). }
  apply check_digest_passed in Hd.
  destruct (signed_string_of req d) as [s|] eqn:Hs; [|done].
  rewrite check_signature_run.
  destruct (json_loads w (body req)) as [decoded|] eqn:Hj; [|done].
  destruct (canonicalise w decoded) as [document|] eqn:Hc; [|done].
  destruct (json_getitem document "actor") as [actor|] eqn:Ha; [|done].
  destruct (by_actor_uri w actor) as [[who|]|] eqn:Hi; [|done..].
  destruct (getitem d "signature") as [signature|] eqn:Hg; [|done].
  destruct (verify_signature w who signature s) as [[]|] eqn:Hv; [|done..].
  cbn [events outcome fst snd]. intros [= <-].
  exists header, s, signature, d, decoded, document, actor, who.
  repeat split; try done.
  - by apply getitem_Ok.
  - destruct Hd as [[? _]|[? _]]; tauto.
  - by apply getitem_Ok.
  - by rewrite last_app.
Qed.

Lemma trusted_only_when_verified_witness :
  exists (header signed_string signature : string) (signature_details : gmap string string)
         (decoded document actor : json) (who : Identity Demo.world),
    META Demo.signed_request !! "HTTP_SIGNATURE" = Some header
    /\ parse_signature header = Ok signature_details
    /\ signature_details !! "algorithm" = Some "rsa-sha256"
    /\ (META Demo.signed_request !! "HTTP_DIGEST" = None
        \/ META Demo.signed_request !! "HTTP_DIGEST"
           = Some (digest_text (body Demo.signed_request)))
    /\ signed_string_of Demo.signed_request signature_details = Ok signed_string
    /\ json_loads Demo.world (body Demo.signed_request) = Ok decoded
    /\ canonicalise Demo.world decoded = Ok document
    /\ json_getitem document "actor" = Ok actor
    /\ by_actor_uri Demo.world actor = Ok (Some who)
    /\ signature_details !! "signature" = Some signature
    /\ verify_signature Demo.world who signature signed_string = Ok true
    /\ last (events (post Demo.world Demo.signed_request))
       = Some (VerifySignature who signature signed_string).
Proof.
  apply (trusted_only_when_verified Demo.world Demo.signed_request).
  vm_compute. reflexivity.
Defined.

(** X2: the 400 response has four causes, and the events of the run tell
    which: no signature header; a declared algorithm other than
    rsa-sha256; a [Digest] header that is not the digest text of the body;
    or, after every other check has passed, a signature that the key of the
    resolved identity did not accept.  Each run that ends in the 400
    response ends with the printed line of its cause. *)
Theorem rejection_causes (w : world) (req : HttpRequest) (t : list (event w)) :
  post w req = (t, Ok HttpResponseBadRequest) ->
  (META req !! "HTTP_SIGNATURE" = None /\ t = [Print "No signature"])
  \/ (exists (header algorithm : string) (signature_details : gmap string string),
        META req !! "HTTP_SIGNATURE" = Some header
        /\ parse_signature header = Ok signature_details
        /\ signature_details !! "algorithm" = Some algorithm
        /\ algorithm ≠ "rsa-sha256"
        /\ t = [Print "Unknown algorithm"])
  \/ (exists sent : string,
        META req !! "HTTP_DIGEST" = Some sent
        /\ sent ≠ digest_text (body req)
        /\ t = [Hashed (body req); Print "Bad digest"])
  \/ (exists (signed_string signature : string) (signature_details : gmap string string)
             (who : Identity w) (before : list (event w)),
        reaches_body w req signature_details signed_string
        /\ signature_details !! "signature" = Some signature
        /\ verify_signature w who signature signed_string = Ok false
        /\ t = before ++ [VerifySignature who signature signed_string;
                          Print "Bad signature"]).
Proof.
  rewrite post_run.
  destruct (META req !! "HTTP_SIGNATURE") as [header|] eqn:Hsig;
    [|intros [= <-]; by left].
  destruct (parse_signature header) as [d|] eqn:Hparse; [|done].
  destruct (getitem d "algorithm") as [a|] eqn:Halg; [|done].
  apply getitem_Ok in Halg.
  destruct (String.eqb_spec a "rsa-sha256") as [->|Hne]; cbn [negb].
  2:{ intros [= <-]. right; left. by exists header, a, d. }
  destruct (check_digest w req) as [hashed [[response|]|]] eqn:Hd; [| |done].
  { rewrite check_digest_run in Hd. destruct (META req !! "HTTP_DIGEST") as [sent|]; [|done].
    destruct (String.eqb_spec sent (digest_text (body req))); [done|].
    injection Hd as <- <-. intros [= <-]. right; right; left. by exists sent. }
  destruct (signed_string_of req d) as [s|] eqn:Hs; [|done].
  assert (reaches_body w req d s) as Hreach.
  { exists header. repeat split; try done. by rewrite Hd. }
  rewrite check_signature_run.
  destruct (json_loads w (body req)) as [decoded|]; [|done].
  destruct (canonicalise w decoded) as [document|]; [|done].
  destruct (json_getitem document "actor") as [actor|]; [|done].
  destruct (by_actor_uri w actor) as [[who|]|]; [|done..].
  destruct (getitem d "signature") as [signature|] eqn:Hg; [|done].
  apply getitem_Ok in Hg.
  destruct (verify_signature w who signature s) as [[]|] eqn:Hv; [done| |done].
  cbn [events outcome fst snd]. intros [= <-]. right; right; right.
  exists s, signature, d, who,
    (hashed ++ [JsonLoads (body req); Canonicalise decoded; PrintDocument document;
                ByActorUri actor]).
  repeat split; try done. by rewrite <- app_assoc.
Qed.

Lemma rejection_causes_witness :
  exists sent : string,
    META (Demo.with_digest "SHA-256=AAAA" Demo.signed_request) !! "HTTP_DIGEST" = Some sent
    /\ sent ≠ digest_text (body (Demo.with_digest "SHA-256=AAAA" Demo.signed_request))
    /\ events (post Demo.world (Demo.with_digest "SHA-256=AAAA" Demo.signed_request))
       = [Hashed (body (Demo.with_digest "SHA-256=AAAA" Demo.signed_request));
          Print "Bad digest"].
Proof.
  destruct (rejection_causes Demo.world (Demo.with_digest "SHA-256=AAAA" Demo.signed_request)
              [Hashed (text Demo.note); Print "Bad digest"])
    as [[_ H]|[(h & a & d & _ & _ & _ & _ & H)|[H|(s & g & d & i & b & _ & _ & _ & H)]]].
  - vm_compute. reflexivity.
  - discriminate H.
  - discriminate H.
  - exact H.
  - exfalso. apply (f_equal (fun l => last l)) in H. rewrite last_app in H.
    discriminate H.
Defined.

Ltac members H :=
  cbn [events fst app] in H; apply list_elem_of_In in H; cbn [In] in H;
  destruct_or?; simplify_eq; done.

Lemma only_local_events {w : world} (l : list (event w)) (ev : event w) :
  forallb (fun e => negb (after_checks e)) l = true ->
  ev ∈ l -> after_checks ev = false.
Proof.
  rewrite forallb_forall. intros H Hin. apply list_elem_of_In, H in Hin.
  by apply negb_true_iff.
Qed.

(** X3: the body is decoded, the document canonicalised and printed, the
    actor looked up and the key asked only in runs that passed the checks
    of the signature header, of the algorithm, of the digest and of the
    covered headers; and the key is only ever asked about the signature of
    the header over the signed string built from the request. *)
Theorem collaborators_called_after_checks
    (w : world) (req : HttpRequest) (ev : event w) :
  ev ∈ events (post w req) ->
  after_checks ev = true ->
  exists (signature_details : gmap string string) (signed_string : string),
    reaches_body w req signature_details signed_string
    /\ forall who signature signed,
         ev = VerifySignature who signature signed ->
         signed = signed_string /\ signature_details !! "signature" = Some signature.
Proof.
  assert (forall l : list (event w),
            forallb (fun e => negb (after_checks e)) l = true ->
            ev ∈ l -> after_checks ev = true -> False) as early.
  { intros l Hl Hin Hev. apply (only_local_events l ev Hl) in Hin. congruence. }
  rewrite post_run.
  destruct (META req !! "HTTP_SIGNATURE") as [header|] eqn:Hsig.
  2:{ cbn [events fst]. intros Hin Hev. exfalso; refine (early _ _ Hin Hev); reflexivity. }
  destruct (parse_signature header) as [d|] eqn:Hparse.
  2:{ cbn [events fst]. intros Hin Hev. exfalso; refine (early _ _ Hin Hev); reflexivity. }
  destruct (getitem d "algorithm") as [a|] eqn:Halg.
  2:{ cbn [events fst]. intros Hin Hev. exfalso; refine (early _ _ Hin Hev); reflexivity. }
  apply getitem_Ok in Halg.
  destruct (String.eqb_spec a "rsa-sha256") as [->|Hne]; cbn [negb].
  2:{ cbn [events fst]. intros Hin Hev. exfalso; refine (early _ _ Hin Hev); reflexivity. }
  assert (forallb (fun e : event w => negb (after_checks e)) (events (check_digest w req))
          = true) as Hh.
  { rewrite check_digest_run. destruct (META req !! "HTTP_DIGEST"); [|done].
    by destruct (String.eqb _ _). }
  destruct (check_digest w req) as [hashed [[response|]|]] eqn:Hd; cbn [events fst] in Hh.
  - cbn [events fst]. intros Hin Hev. by destruct (early _ Hh Hin Hev).
  - destruct (signed_string_of req d) as [s|] eqn:Hs.
    2:{ cbn [events fst]. intros Hin Hev. by destruct (early _ Hh Hin Hev). }
    intros Hin Hev. exists d, s. split.
    { exists header. repeat split; try done. by rewrite Hd. }
    intros who signature signed ->.
    cbn [events fst] in Hin. apply elem_of_app in Hin as [Hin|Hin].
    { by destruct (early _ Hh Hin Hev). }
    rewrite check_signature_run in Hin.
    destruct (json_loads w (body req)) as [decoded|]; [|members Hin].
    destruct (canonicalise w decoded) as [document|]; [|members Hin].
    destruct (json_getitem document "actor") as [actor|]; [|members Hin].
    destruct (by_actor_uri w actor) as [[who'|]|]; [|members Hin..].
    destruct (getitem d "signature") as [signature'|] eqn:Hg; [|members Hin].
    apply getitem_Ok in Hg.
    destruct (verify_signature w who' signature' s) as [[]|]; members Hin.
  - cbn [events fst]. intros Hin Hev. by destruct (early _ Hh Hin Hev).
Qed.

Lemma collaborators_called_after_checks_witness :
  exists (signature_details : gmap string string) (signed_string : string),
    reaches_body Demo.world Demo.signed_request signature_details signed_string
    /\ forall who signature signed,
         (VerifySignature (Demo.alice : Identity Demo.world) Demo.signature_b64
            Demo.host_date_payload : event Demo.world)
         = VerifySignature who signature signed ->
         signed = signed_string /\ signature_details !! "signature" = Some signature.
Proof.
  apply (collaborators_called_after_checks Demo.world Demo.signed_request).
  - vm_compute. repeat constructor.
  - reflexivity.
Defined.

(** ** Inbox.post: signature headers that do not split as hoped *)

Lemma split_once_none (c : ascii) (s : string) :
  occurs c s = false -> Str.split_once c s = None.
Proof.
  unfold occurs. induction s as [|a s IH]; [done|].
  cbn [any_char Str.split_once]. intros H. apply orb_false_elim in H as [-> H].
  by rewrite IH.
Qed.

Lemma split_signature_bad_item (items : list string) (d : gmap string string)
    (item : string) :
  item ∈ items -> occurs "=" item = false ->
  split_signature items d = Raise unpack_error.
Proof.
  revert d. induction items as [|x items IH]; intros d Hin Hitem.
  - by apply elem_of_nil in Hin.
  - cbn [split_signature]. apply elem_of_cons in Hin as [<-|Hin].
    + by rewrite split_once_none.
    + destruct (Str.split_once "=" x) as [[name value]|]; [by apply IH|done].
Qed.

(** X4: when one of the comma-separated items of the signature header has
    no equals sign (an empty header, a trailing comma, a comma inside a
    value), the handler ends with ValueError before it prints, hashes or
    calls anything, and gives no response. *)
Theorem item_without_equals_raises
    (w : world) (req : HttpRequest) (header item : string) :
  META req !! "HTTP_SIGNATURE" = Some header ->
  item ∈ Str.split "," header ->
  occurs "=" item = false ->
  post w req = ([], Raise unpack_error).
Proof.
  intros Hsig Hin Hitem. rewrite post_run, Hsig. unfold parse_signature.
  by rewrite (split_signature_bad_item _ _ item).
Qed.

Lemma item_without_equals_raises_witness :
  post Demo.world
    (Demo.request (Demo.signature_header "rsa-sha256" "(request-target) host date" +:+ ",")
                  Demo.note)
  = ([], Raise unpack_error).
Proof.
  apply (item_without_equals_raises Demo.world _
           (Demo.signature_header "rsa-sha256" "(request-target) host date" +:+ ",") "").
  - vm_compute. reflexivity.
  - vm_compute. repeat constructor.
  - reflexivity.
Defined.

Lemma join_head (sep p y : string) (l : list string) :
  Str.join sep ((p +:+ y) :: l) = p +:+ Str.join sep (y :: l).
Proof. destruct l; cbn [Str.join]; [done|]. by rewrite append_assoc. Qed.

Lemma join_comma_space (x : string) (xs : list string) :
  Str.join ", " (x :: xs) = Str.join "," (x :: map (fun y => " " +:+ y) xs).
Proof.
  revert x. induction xs as [|y xs IH]; intros x; [done|].
  change (Str.join ", " (x :: y :: xs)) with (x +:+ ", " +:+ Str.join ", " (y :: xs)).
  rewrite IH. cbn [map].
  change (Str.join "," (x :: (" " +:+ y) :: map (fun y => " " +:+ y) xs))
    with (x +:+ "," +:+ Str.join "," ((" " +:+ y) :: map (fun y => " " +:+ y) xs)).
  by rewrite join_head.
Qed.

Lemma render_field_spaced (f : string * string) :
  render_field (spaced f) = " " +:+ render_field f.
Proof. unfold render_field, spaced. cbn [fst snd]. by rewrite append_assoc. Qed.

Lemma plain_field_spaced (f : string * string) :
  plain_field (spaced f) = plain_field f.
Proof. reflexivity. Qed.

Lemma spaced_name_differs (fields : list (string * string)) (k : string) (a : ascii) :
  a ≠ " "%char -> String a k ∉ map fst (map spaced fields).
Proof.
  intros Ha Hin. apply list_elem_of_fmap in Hin as (f & Hf & Hin).
  apply list_elem_of_fmap in Hin as (g & -> & _). cbn in Hf. by injection Hf as -> _.
Qed.

(** X5: the names of the fields are not trimmed.  In a header whose fields
    are joined by a comma and a space, every field after the first is kept
    under its name with the space in front; so unless [algorithm] is the
    first field the handler finds no algorithm and ends with KeyError. *)
Theorem space_after_comma_stays_in_name
    (w : world) (req : HttpRequest) (first : string * string)
    (rest : list (string * string)) :
  forallb plain_field (first :: rest) = true ->
  parse_signature (Str.join ", " (map render_field (first :: rest)))
  = Ok (details_of (first :: map spaced rest))
  /\ (fst first ≠ "algorithm" ->
      META req !! "HTTP_SIGNATURE"
      = Some (Str.join ", " (map render_field (first :: rest))) ->
      post w req = ([], Raise (KeyError "algorithm"))).
Proof.
  intros Hplain.
  assert (parse_signature (Str.join ", " (map render_field (first :: rest)))
          = Ok (details_of (first :: map spaced rest))) as Hparse.
  { cbn [map]. rewrite join_comma_space.
    replace (map (fun y => " " +:+ y) (map render_field rest))
      with (map render_field (map spaced rest)).
    - apply (parse_rendered (first :: map spaced rest)); [done|].
      cbn [forallb] in *. apply andb_true_iff in Hplain as [-> Hrest]. cbn [andb].
      rewrite forallb_forall in *. intros f Hf. apply in_map_iff in Hf as (g & <- & Hg).
      rewrite plain_field_spaced. by apply Hrest.
    - rewrite !map_map. apply map_ext. intros f. apply render_field_spaced. }
  split; [exact Hparse|]. intros Hfirst Hsig.
  rewrite post_run, Hsig, Hparse. unfold getitem, details_of.
  cbn [fold_left]. rewrite fold_insert_other.
  - by rewrite lookup_insert_ne, lookup_empty.
  - by apply spaced_name_differs.
Qed.

Lemma space_after_comma_stays_in_name_witness :
  post Demo.world
    (Demo.request
       (Str.join ", "
          (map render_field
             [("keyId", Demo.alice +:+ "#main-key"); ("algorithm", "rsa-sha256");
              ("headers", "(request-target) host date");
              ("signature", Demo.signature_b64)]))
       Demo.note)
  = ([], Raise (KeyError "algorithm")).
Proof.
  refine (proj2 (space_after_comma_stays_in_name Demo.world _
                   ("keyId", Demo.alice +:+ "#main-key")
                   [("algorithm", "rsa-sha256");
                    ("headers", "(request-target) host date");
                    ("signature", Demo.signature_b64)] _) _ _).
  - vm_compute. reflexivity.
  - discriminate.
  - vm_compute. reflexivity.
Defined.

(** X6: when a field name stands more than once in the signature header,
    the value of its last occurrence is the one the handler reads. *)
Theorem repeated_field_last_wins
    (before after : list (string * string)) (k v : string) :
  forallb plain_field (before ++ (k, v) :: after) = true ->
  k ∉ map fst after ->
  exists signature_details : gmap string string,
    parse_signature (render_signature (before ++ (k, v) :: after)) = Ok signature_details
    /\ signature_details !! k = Some v.
Proof.
  intros Hplain Hafter. exists (details_of (before ++ (k, v) :: after)). split.
  - apply parse_rendered; [by destruct before|done].
  - unfold details_of. rewrite fold_left_app. cbn [fold_left fst snd].
    rewrite fold_insert_other by done. by rewrite lookup_insert_eq.
Qed.

Lemma repeated_field_last_wins_witness :
  exists signature_details : gmap string string,
    parse_signature
      (render_signature
         ([("algorithm", "hs2019")] ++ ("algorithm", "rsa-sha256")
            :: [("headers", "host"); ("signature", "YQ==")]))
    = Ok signature_details
    /\ signature_details !! "algorithm" = Some "rsa-sha256".
Proof.
  apply repeated_field_last_wins.
  - vm_compute. reflexivity.
  - vm_compute. intros H. apply list_elem_of_In in H. cbn in H.
    destruct H as [H|[H|[]]]; discriminate H.
Defined.

(** ** Inbox.post: the signed string in general *)

Lemma collect_headers_distinct (req : HttpRequest) (names values : list string)
    (acc : odict) :
  NoDup names -> (forall n, n ∈ names -> n ∉ keys acc) ->
  Forall2 (fun n v => header_value req n = Ok v) names values ->
  collect_headers req names acc = Ok (acc ++ zip names values).
Proof.
  intros Hnd Hfresh Hall. revert acc Hnd Hfresh.
  induction Hall as [|n v names values Hv Hall IH]; intros acc Hnd Hfresh.
  - cbn. by rewrite app_nil_r.
  - apply NoDup_cons in Hnd as [Hn Hnd]. cbn [collect_headers zip zip_with].
    rewrite Hv, odict_set_new by (apply Hfresh; by left).
    rewrite IH; [by rewrite <- app_assoc|done|].
    intros m Hm. unfold keys. rewrite map_app. cbn.
    rewrite elem_of_app, list_elem_of_singleton. intros [Hacc| ->]; [|done].
    apply (Hfresh m); [by right|done].
Qed.

(** X7: when the covered names are pairwise distinct and the request has
    a value for each, the signed string has one line per name, in the order
    of the list: the name, a colon and a space, the value; the lines are
    joined by single newlines and no newline follows the last. *)
Theorem signed_string_one_line_per_name
    (req : HttpRequest) (signature_details : gmap string string)
    (covered : string) (values : list string) :
  signature_details !! "headers" = Some covered ->
  NoDup (Str.split_ws covered) ->
  Forall2 (fun n v => header_value req n = Ok v) (Str.split_ws covered) values ->
  signed_string_of req signature_details
  = Ok (Str.join newline (map line (zip (Str.split_ws covered) values))).
Proof.
  intros Hcov Hnd Hall. unfold signed_string_of.
  rewrite (getitem_Some _ _ _ Hcov).
  rewrite (collect_headers_distinct req _ values []); [done..| |done].
  intros n _ Hn. by apply elem_of_nil in Hn.
Qed.

Lemma signed_string_one_line_per_name_witness :
  signed_string_of Demo.signed_request (<["headers" := "date content-type host"]> ∅)
  = Ok (Str.join newline
          (map line
             (zip (Str.split_ws "date content-type host")
                  ["Wed, 01 Jan 2020 00:00:00 GMT"; "application/activity+json";
                   "example.com"]))).
Proof.
  apply signed_string_one_line_per_name.
  - vm_compute. reflexivity.
  - vm_compute. repeat constructor; intros H; apply list_elem_of_In in H; cbn in H;
      intuition discriminate.
  - vm_compute. repeat constructor.
Defined.

(** ** Inbox.post: the length of the expected digest header *)

Local Open Scope nat_scope.

Lemma flat_map_length_const {A B : Type} (f : A -> list B) (k : nat) (l : list A) :
  (forall x, length (f x) = k) -> length (flat_map f l) = k * length l.
Proof.
  intros Hf. induction l as [|x l IH]; cbn; [lia|].
  rewrite length_app, Hf, IH. lia.
Qed.

Lemma compress_length (h block : list Z) :
  length h = 8 -> length (SHA256.compress h block) = 8.
Proof.
  intros Hh. unfold SHA256.compress. rewrite length_zip_with, Hh. reflexivity.
Qed.

Lemma fold_compress_length (blocks : list (list Z)) (h : list Z) :
  length h = 8 -> length (fold_left SHA256.compress blocks h) = 8.
Proof.
  revert h. induction blocks as [|b blocks IH]; intros h Hh; [done|].
  cbn [fold_left]. by apply IH, compress_length.
Qed.

(** A SHA-256 digest has 32 bytes. *)
Lemma sha256_length (data : bytes) : length (SHA256.sha256 data) = 32.
Proof.
  unfold SHA256.sha256, SHA256.digest_Z. rewrite length_map.
  rewrite (flat_map_length_const _ 4).
  - by rewrite fold_compress_length.
  - intros x. unfold SHA256.be_bytes. by rewrite length_map, length_seq.
Qed.

Lemma b64encode_length (l : bytes) :
  length (Base64.b64encode l) = 4 * ((length l + 2) / 3).
Proof.
  induction l as [|a|a b|a b c l IH] using list_ind3; [done..|].
  cbn [Base64.b64encode length]. rewrite IH.
  replace (S (S (S (length l))) + 2) with ((length l + 2) + 1 * 3) by lia.
  rewrite Nat.div_add by lia. lia.
Qed.

Lemma string_of_list_byte_length (l : bytes) :
  String.length (String.string_of_list_byte l) = length l.
Proof.
  unfold String.string_of_list_byte. induction l as [|b l IH]; [done|].
  cbn. by rewrite IH.
Qed.

Lemma string_length_app (a b : string) :
  String.length (a +:+ b) = String.length a + String.length b.
Proof.
  induction a as [|x a IH]; [done|]. rewrite append_cons. cbn. by rewrite IH.
Qed.

(** X8: the digest header the handler expects always has 52 characters,
    the eight of the scheme and the equals sign and the 44 of the Base64
    text of a 32-byte digest; a [Digest] header of any other length is
    answered with the 400 response after the line [Bad digest]. *)
Theorem digest_header_has_52_characters
    (w : world) (req : HttpRequest) (sent : string) :
  digest_header (body req) = Ok (digest_text (body req))
  /\ String.length (digest_text (body req)) = 52
  /\ (META req !! "HTTP_DIGEST" = Some sent ->
      String.length sent ≠ 52 ->
      check_digest w req
      = ([Hashed (body req); Print "Bad digest"], Ok (Some HttpResponseBadRequest))).
Proof.
  assert (String.length (digest_text (body req)) = 52) as Hlen.
  { unfold digest_text, b64text.
    rewrite string_length_app, string_of_list_byte_length, b64encode_length, sha256_length.
    reflexivity. }
  split; [apply digest_header_text|]. split; [exact Hlen|].
  intros Hd Hne. apply (check_digest_mismatch w req sent Hd). intros ->. done.
Qed.

Lemma digest_header_has_52_characters_witness :
  check_digest Demo.world
    (Demo.with_digest "SHA-512=z4PhNX7vuL3xVChQ1m2AB9Yg5AULVxXcg/SpIdNs6c5H0NE8XYXysP+DGNKHfuwvY7kxvUdBeoGlODJ6+SfaPg=="
       Demo.signed_request)
  = ([Hashed (body Demo.signed_request); Print "Bad digest"],
     Ok (Some HttpResponseBadRequest)).
Proof.
  refine (proj2 (proj2 (digest_header_has_52_characters Demo.world
    (Demo.with_digest "SHA-512=z4PhNX7vuL3xVChQ1m2AB9Yg5AULVxXcg/SpIdNs6c5H0NE8XYXysP+DGNKHfuwvY7kxvUdBeoGlODJ6+SfaPg=="
       Demo.signed_request) _)) _ _).
  - vm_compute. reflexivity.
  - vm_compute. discriminate.
Defined.

(** ** CreateIdentity.form_class.clean_handle *)

Lemma characters_pass_Forall (value : ustr) :
  CreateIdentity.characters_pass value = true <-> Forall (fun c => c ∈ CreateIdentity.allowed_characters) value.
Proof.
  induction value as [|c value IH]; cbn [CreateIdentity.characters_pass].
  - split; [constructor|done].
  - rewrite Forall_cons. case_bool_decide; [by rewrite IH; tauto|].
    split; [done|tauto].
Qed.

Lemma allowed_not_at_sign (value : ustr) :
  Forall (fun c => c ∈ CreateIdentity.allowed_characters) value -> CreateIdentity.at_sign ∉ value.
Proof.
  intros Hall Hin. rewrite Forall_forall in Hall. apply Hall in Hin.
  assert (bool_decide (CreateIdentity.at_sign ∈ CreateIdentity.allowed_characters) = false) as E
    by (vm_compute; reflexivity).
  by apply bool_decide_eq_false in E.
Qed.

Lemma ulstrip_replicate (c : N) (n : nat) (s : ustr) :
  ulstrip c (replicate n c ++ s) = ulstrip c s.
Proof. induction n as [|n IH]; [done|]. cbn. by rewrite N.eqb_refl. Qed.

Section CleanHandle.

Import CreateIdentity.

Variable DEFAULT_DOMAIN : ustr.
Variable handle_exists : ustr -> bool.

(** X9: [clean_handle] returns a value exactly when the handle, without
    its leading at signs, is made of ASCII letters, digits, underscores
    and dashes only, and no identity has the handle made of it, an at sign
    and the default domain; and that handle is the value returned. *)
Theorem clean_handle_accepts (cleaned_handle value : ustr) :
  clean_handle DEFAULT_DOMAIN handle_exists cleaned_handle = Cleaned value
  <-> Forall (fun c => c ∈ allowed_characters) (ulstrip at_sign cleaned_handle)
      /\ value = ulstrip at_sign cleaned_handle ++ at_sign :: DEFAULT_DOMAIN
      /\ handle_exists value = false.
Proof.
  unfold clean_handle.
  destruct (characters_pass (ulstrip at_sign cleaned_handle)) eqn:Hpass; cbn [negb].
  - apply characters_pass_Forall in Hpass.
    rewrite (bool_decide_eq_false_2 _ (allowed_not_at_sign _ Hpass)). cbn [negb app].
    destruct (handle_exists _) eqn:Hex.
    + split; [done|]. intros (_ & -> & H). congruence.
    + split; [by intros [= <-]|]. by intros (_ & -> & _).
  - split; [done|]. intros (Hall & _). apply characters_pass_Forall in Hall. congruence.
Qed.

(** X10: [clean_handle] raises one of two messages: the one about the
    allowed characters, exactly when some character after the leading at
    signs is not allowed (an at sign there is such a character), and the
    one about a taken handle.  The message about an at sign in the handle
    is never raised. *)
Theorem clean_handle_rejections (cleaned_handle : ustr) (message : string) :
  clean_handle DEFAULT_DOMAIN handle_exists cleaned_handle = ValidationError message ->
  message ≠ at_sign_message
  /\ ((message = only_letters_message
       /\ exists c, c ∈ ulstrip at_sign cleaned_handle /\ c ∉ allowed_characters)
      \/ (message = taken_message
          /\ Forall (fun c => c ∈ allowed_characters) (ulstrip at_sign cleaned_handle)
          /\ handle_exists (ulstrip at_sign cleaned_handle ++ at_sign :: DEFAULT_DOMAIN)
             = true)).
Proof.
  unfold clean_handle.
  destruct (characters_pass (ulstrip at_sign cleaned_handle)) eqn:Hpass; cbn [negb].
  - apply characters_pass_Forall in Hpass.
    rewrite (bool_decide_eq_false_2 _ (allowed_not_at_sign _ Hpass)). cbn [negb app].
    destruct (handle_exists _) eqn:Hex; [|done].
    intros [= <-]. split; [done|]. by right.
  - intros [= <-]. split; [done|]. left. split; [done|].
    apply not_true_iff_false in Hpass. rewrite characters_pass_Forall in Hpass.
    apply not_Forall_Exists in Hpass; [|intros c; apply _].
    apply Exists_exists in Hpass as (c & Hc & Hnot). by exists c.
Qed.

(** X11: leading at signs change nothing, however many there are. *)
Theorem clean_handle_leading_at_signs (n : nat) (cleaned_handle : ustr) :
  clean_handle DEFAULT_DOMAIN handle_exists (replicate n at_sign ++ cleaned_handle)
  = clean_handle DEFAULT_DOMAIN handle_exists cleaned_handle.
Proof. unfold clean_handle. by rewrite ulstrip_replicate. Qed.

(** X12: a handle made of at signs only, the empty one among them, passes
    the character check with an empty local part: the value is the at sign
    and the default domain, unless an identity has that handle. *)
Theorem clean_handle_empty_local_part (n : nat) :
  clean_handle DEFAULT_DOMAIN handle_exists (replicate n at_sign)
  = if handle_exists (at_sign :: DEFAULT_DOMAIN) then ValidationError taken_message
    else Cleaned (at_sign :: DEFAULT_DOMAIN).
Proof.
  unfold clean_handle.
  rewrite <- (app_nil_r (replicate n at_sign)), ulstrip_replicate. reflexivity.
Qed.

End CleanHandle.

Lemma clean_handle_accepts_witness :
  CreateIdentity.clean_handle Site.domain Site.handle_exists (U "@@Alice_01")
  = CreateIdentity.Cleaned (U "Alice_01@example.com").
Proof.
  apply (proj2 (clean_handle_accepts Site.domain Site.handle_exists
                  (U "@@Alice_01") (U "Alice_01@example.com"))).
  split; [|split].
  - apply characters_pass_Forall. vm_compute. reflexivity.
  - vm_compute. reflexivity.
  - vm_compute. reflexivity.
Defined.

Lemma clean_handle_rejections_witness :
  "Only the letters a-z, numbers 0-9, dashes and underscores are allowed."
  ≠ CreateIdentity.at_sign_message
  /\ (("Only the letters a-z, numbers 0-9, dashes and underscores are allowed."
       = CreateIdentity.only_letters_message
       /\ exists c, c ∈ ulstrip CreateIdentity.at_sign (U "bob@elsewhere.example")
                    /\ c ∉ CreateIdentity.allowed_characters)
      \/ ("Only the letters a-z, numbers 0-9, dashes and underscores are allowed."
          = CreateIdentity.taken_message
          /\ Forall (fun c => c ∈ CreateIdentity.allowed_characters)
                    (ulstrip CreateIdentity.at_sign (U "bob@elsewhere.example"))
          /\ Site.handle_exists
               (ulstrip CreateIdentity.at_sign (U "bob@elsewhere.example")
                ++ CreateIdentity.at_sign :: Site.domain) = true)).
Proof.
  apply (clean_handle_rejections Site.domain Site.handle_exists
           (U "bob@elsewhere.example")).
  vm_compute. reflexivity.
Defined.

(** ** ActivateIdentity.get *)

Lemma slash_has_no_colon : (58%N : N) ∉ U "/".
Proof.
  assert (bool_decide ((58%N : N) ∈ U "/") = false) as E by (vm_compute; reflexivity).
  by apply bool_decide_eq_false in E.
Qed.

(** X13: the identity is activated only for one of its users.  When the
    view answers, the identity exists and has the user among its users,
    its id is stored in the session under [identity_id] with every other
    entry as it was, and the redirect goes to the root of the site whatever
    the [next] parameter was (the next URL the view computes holds no
    colon, and is not used).  When the identity does not exist or has not
    the user, the view raises and the session is as it was. *)
Theorem activation_only_for_a_user
    (by_handle_or_404 : ustr -> result Models.Identity)
    (has_user : Models.Identity -> Z -> bool)
    (user_pk : Z) (GET_next : option ustr) (session session' : gmap string Z)
    (handle : ustr) (answer : result ActivateIdentity.redirected) :
  ActivateIdentity.get by_handle_or_404 has_user user_pk GET_next session handle
  = (session', answer) ->
  ((58%N : N) ∉ ActivateIdentity.next_url GET_next)
  /\ match answer with
     | Ok response =>
         response = ActivateIdentity.Redirect (U "/")
         /\ exists who,
              by_handle_or_404 handle = Ok who
              /\ has_user who user_pk = true
              /\ session' = <["identity_id" := Models.id who]> session
     | Raise e =>
         session' = session
         /\ (by_handle_or_404 handle = Raise e
             \/ exists who, by_handle_or_404 handle = Ok who
                            /\ has_user who user_pk = false /\ e = Http404)
     end.
Proof.
  intros H. split.
  - unfold ActivateIdentity.next_url. case_bool_decide as Hc; [apply slash_has_no_colon|].
    exact Hc.
  - unfold ActivateIdentity.get in H.
    destruct (by_handle_or_404 handle) as [who|e] eqn:Hl.
    + destruct (has_user who user_pk) eqn:Hu; cbn [negb] in H; injection H as <- <-.
      * split; [done|]. by exists who.
      * split; [done|]. right. by exists who.
    + injection H as <- <-. split; [done|]. by left.
Qed.

Lemma activation_only_for_a_user_witness :
  ((58%N : N) ∉ ActivateIdentity.next_url (Some (U "https://evil.example/")))
  /\ ActivateIdentity.Redirect (U "/") = ActivateIdentity.Redirect (U "/")
     /\ exists who,
          Site.by_handle_or_404 (U "bob@example.com") = Ok who
          /\ Site.has_user who 1%Z = true
          /\ <["identity_id" := 7%Z]> (∅ : gmap string Z)
             = <["identity_id" := Models.id who]> ∅.
Proof.
  apply (activation_only_for_a_user Site.by_handle_or_404 Site.has_user 1%Z
           (Some (U "https://evil.example/")) ∅ (<["identity_id" := 7%Z]> ∅)
           (U "bob@example.com") (Ok (ActivateIdentity.Redirect (U "/")))).
  vm_compute. reflexivity.
Defined.

(** ** Actor.get and Webfinger.get *)

Lemma startswith_spec (prefix s : ustr) :
  startswith prefix s = true <-> s = prefix ++ drop (length prefix) s.
Proof.
  revert s. induction prefix as [|p prefix IH]; intros s.
  - cbn. by rewrite drop_0.
  - destruct s as [|x s]; cbn [startswith]; [split; done|].
    rewrite andb_true_iff, N.eqb_eq, IH. cbn. split.
    + intros [-> H]. by rewrite <- H.
    + intros [= -> H]. by rewrite <- H.
Qed.

(** X14: Webfinger looks an identity up only for a resource that starts
    with [acct:], once, and under the resource without these five
    characters.  A request without the [resource] parameter ends with
    AttributeError, and a resource with another start with Http404, both
    before any look-up.  When the look-up raises, so does the view; else
    the subject of the answer is [acct:] and the handle of the identity
    found. *)
Theorem webfinger_looks_up_the_account
    (DEFAULT_DOMAIN : ustr) (by_handle_or_404 : ustr -> result Models.Identity)
    (GET_resource : option ustr) (t : list ustr) (answer : result pydata) :
  Federation.Webfinger_get DEFAULT_DOMAIN by_handle_or_404 GET_resource = (t, answer) ->
  (GET_resource = None -> t = [] /\ answer = Raise AttributeError)
  /\ (forall resource,
        GET_resource = Some resource -> startswith (U "acct:") resource = false ->
        t = [] /\ answer = Raise Http404)
  /\ (forall h, h ∈ t ->
        t = [h] /\ GET_resource = Some (U "acct:" ++ h)
        /\ match by_handle_or_404 h with
           | Raise e => answer = Raise e
           | Ok who =>
               exists data, answer = Ok data
                 /\ pget "subject" data = Some (PStr (U "acct:" ++ Models.handle who))
           end)
  /\ (forall data, answer = Ok data -> exists h who,
        t = [h] /\ by_handle_or_404 h = Ok who).
Proof.
  unfold Federation.Webfinger_get, Federation.find. intros H.
  destruct GET_resource as [resource|].
  2:{ injection H as <- <-. split; [done|]. split; [done|]. split; [|done].
      intros h Hh. by apply elem_of_nil in Hh. }
  destruct (startswith (U "acct:") resource) eqn:Hs; cbn [negb] in H.
  2:{ injection H as <- <-. split; [done|]. split; [done|]. split; [|done].
      intros h Hh. by apply elem_of_nil in Hh. }
  pose proof Hs as Hstart.
  apply startswith_spec in Hs. change (length (U "acct:")) with 5 in Hs.
  destruct (by_handle_or_404 (drop 5 resource)) as [who|e] eqn:Hl; injection H as <- <-.
  - split; [done|]. split; [intros r [= <-]; congruence|]. split.
    + intros h Hh. apply list_elem_of_singleton in Hh. subst h. rewrite Hl.
      split; [done|]. split; [by f_equal|]. by eexists.
    + intros data _. by exists (drop 5 resource), who.
  - split; [done|]. split; [intros r [= <-]; congruence|]. split; [|done].
    intros h Hh. apply list_elem_of_singleton in Hh. subst h. rewrite Hl.
    split; [done|]. split; [by f_equal|done].
Qed.

Lemma webfinger_looks_up_the_account_witness :
  exists h who,
    [U "bob@example.com"] = [h] /\ Site.by_handle_or_404 h = Ok who.
Proof.
  destruct (webfinger_looks_up_the_account Site.domain Site.by_handle_or_404
              (Some (U "acct:bob@example.com")) [U "bob@example.com"]
              (snd (Federation.Webfinger_get Site.domain Site.by_handle_or_404
                      (Some (U "acct:bob@example.com")))))
    as (_ & _ & _ & H).
  - vm_compute. reflexivity.
  - eapply H. vm_compute. reflexivity.
Defined.

(** X15: the actor document and the webfinger answer of one identity name
    the same actor URL, the scheme, the default domain and the actor path
    of the identity: it is the [id] of the actor document, the owner of its
    public key, the id of that key without the fragment [main-key], and
    the target of the [self] link of webfinger.  The inbox of the document
    is the inbox path of the identity on the same domain. *)
Theorem actor_url_consistent
    (DEFAULT_DOMAIN : ustr) (by_handle_or_404 : ustr -> result Models.Identity)
    (asked resource_handle : ustr) (who : Models.Identity) :
  by_handle_or_404 asked = Ok who ->
  by_handle_or_404 resource_handle = Ok who ->
  exists (document answer : pydata),
    Federation.Actor_get DEFAULT_DOMAIN by_handle_or_404 asked = ([asked], Ok document)
    /\ Federation.Webfinger_get DEFAULT_DOMAIN by_handle_or_404
         (Some (U "acct:" ++ resource_handle))
       = ([resource_handle], Ok answer)
    /\ let url := U "https://" ++ DEFAULT_DOMAIN ++ Models.urls_actor who in
       pget "id" document = Some (PStr url)
       /\ (pget "publicKey" document ≫= pget "owner") = Some (PStr url)
       /\ (pget "publicKey" document ≫= pget "id") = Some (PStr (url ++ U "#main-key"))
       /\ ((pget "links" answer ≫= pitem 1) ≫= pget "href") = Some (PStr url)
       /\ ((pget "links" answer ≫= pitem 1) ≫= pget "rel") = Some (PStr (U "self"))
       /\ pget "inbox" document
          = Some (PStr (U "https://" ++ DEFAULT_DOMAIN ++ Models.urls_inbox who)).
Proof.
  intros Ha Hr. eexists _, _. split; [|split].
  - unfold Federation.Actor_get, Federation.find. rewrite Ha. reflexivity.
  - unfold Federation.Webfinger_get, Federation.find.
    change (startswith (U "acct:") (U "acct:" ++ resource_handle)) with true.
    cbn [negb]. change (drop 5 (U "acct:" ++ resource_handle)) with resource_handle.
    rewrite Hr. reflexivity.
  - cbn. repeat split. by rewrite <- !app_assoc.
Qed.

Lemma actor_url_consistent_witness :
  exists (document answer : pydata),
    Federation.Actor_get Site.domain Site.by_handle_or_404 (U "bob@example.com")
    = ([U "bob@example.com"], Ok document)
    /\ Federation.Webfinger_get Site.domain Site.by_handle_or_404
         (Some (U "acct:" ++ U "bob@example.com"))
       = ([U "bob@example.com"], Ok answer)
    /\ let url := U "https://" ++ Site.domain ++ Models.urls_actor Site.bob in
       pget "id" document = Some (PStr url)
       /\ (pget "publicKey" document ≫= pget "owner") = Some (PStr url)
       /\ (pget "publicKey" document ≫= pget "id") = Some (PStr (url ++ U "#main-key"))
       /\ ((pget "links" answer ≫= pitem 1) ≫= pget "href") = Some (PStr url)
       /\ ((pget "links" answer ≫= pitem 1) ≫= pget "rel") = Some (PStr (U "self"))
       /\ pget "inbox" document
          = Some (PStr (U "https://" ++ Site.domain ++ Models.urls_inbox Site.bob)).
Proof.
  apply (actor_url_consistent Site.domain Site.by_handle_or_404
           (U "bob@example.com") (U "bob@example.com") Site.bob).
  - reflexivity.
  - reflexivity.
Defined.
